(** * The block structure cache of edx-platform

    A shallow embedding of

    - [openedx/core/lib/block_structure/cache.py]
      (class [BlockStructureCache]), and
    - [openedx/core/djangoapps/content/block_structure/models.py]
      (the Django model [BlockStructure]),

    together with the facts about the two-tier cache that can be settled
    on them.

    Python text ([str] and [unicode]) is modelled by [string], payloads
    (the Python 2 [str] produced by [zpickle]) by [list Byte.byte].
    Methods run in a state-and-exception monad over a [World] that holds
    the waffle switch, the Django cache, the rows of the model's table and
    the log. An exception keeps the writes made before it was raised. *)

From Stdlib Require Import String Ascii List ZArith Lia.
From Stdlib.Strings Require Import Byte.
From stdpp Require Import base decidable option list strings gmap pretty.

Local Open Scope string_scope.
Local Open Scope list_scope.

Abbreviation bytes := (list Byte.byte).

#[global] Instance byte_eq_decision : EqDecision Byte.byte := Byte.byte_eq_dec.

(** ** Collaborators that are not part of the two modules

    The identity type ([opaque_keys] usage keys), time stamps, the three
    tables of a block structure, the codec of
    [openedx.core.lib.cache_utils] and the schema version constant
    [BlockStructureBlockData.VERSION] are used by the code but defined
    elsewhere; they are taken as an interface. The codec may raise: its
    exception is carried as a message. *)

Class Collaborators := {
  UsageKey : Type;
  UsageKey_eq_dec :: EqDecision UsageKey;
  unicode_key : UsageKey -> string;
  DateTime : Type;
  DateTime_eq_dec :: EqDecision DateTime;
  unicode_datetime : DateTime -> string;
  Relations : Type;
  Relations_eq_dec :: EqDecision Relations;
  TransformerData : Type;
  TransformerData_eq_dec :: EqDecision TransformerData;
  BlockDataMap : Type;
  BlockDataMap_eq_dec :: EqDecision BlockDataMap;
  zpickle : Relations * TransformerData * BlockDataMap -> string + bytes;
  zunpickle : bytes -> string + Relations * TransformerData * BlockDataMap;
  VERSION : Z;
}.

Section DataModel.
Context `{Collaborators}.

(** The in-memory block structure ([BlockStructureBlockData]), with the
    attributes that [_serialize] reads. *)
Record BlockStructureBlockData := {
  root_block_usage_key : UsageKey;
  _block_relations : Relations;
  transformer_data : TransformerData;
  _block_data_map : BlockDataMap;
}.

#[global] Instance BlockStructureBlockData_eq_dec :
  EqDecision BlockStructureBlockData.
Proof. solve_decision. Defined.

(** The Python values that the fields of a record hold, and the
    integer of the schema version. *)
Inductive PyVal :=
| PyNone
| PyUnicode (s : string)
| PyInt (n : Z)
| PyUsageKey (k : UsageKey)
| PyDateTime (d : DateTime).

#[global] Instance PyVal_eq_dec : EqDecision PyVal.
Proof. solve_decision. Defined.

(** [unicode(value)]. *)
Definition unicode (v : PyVal) : string :=
  match v with
  | PyNone => "None"
  | PyUnicode s => s
  | PyInt n => pretty n
  | PyUsageKey k => unicode_key k
  | PyDateTime d => unicode_datetime d
  end.

(** One row of the model [BlockStructure] of models.py. [data] is the
    [FileField]: [None] while no file is associated with it. *)
Record BlockStructureModel := {
  data_usage_key : PyVal;
  data_version : PyVal;
  data_edit_timestamp : PyVal;
  transformers_schema_version : PyVal;
  block_structure_schema_version : PyVal;
  data : option bytes;
}.

(** The exceptions that the two modules raise or let through.
    [FieldPreparationError] stands for what a field of the model raises
    when it prepares a value that is not of its type for a query; its
    class is that of the field's code, which is not among the sources. *)
Inductive Exn :=
| BlockStructureNotFound (key : UsageKey)
| AssertionError
| AttributeError (name : string)
| TypeError (callee : string)
| ValueError (msg : string)
| DoesNotExist
| MultipleObjectsReturned
| FieldPreparationError
| CodecError (msg : string).

(** The calls to [logger.info]. *)
Inductive LogRecord :=
| LogDeleted (key : UsageKey)
| LogWrote (key : UsageKey) (size : nat)
| LogCacheMiss (key : UsageKey)
| LogReadCache (key : UsageKey) (size : nat)
| LogReadStore (key : UsageKey) (size : nat).

(** What the methods read and write: the switch
    [config.STORAGE_BACKING_FOR_CACHE], the Django cache behind
    [self._cache] (payload and timeout in seconds per key), the rows
    behind [models.BlockStructure.objects] and the log. *)
Record World := {
  STORAGE_BACKING_FOR_CACHE : bool;
  _cache : gmap string (bytes * Z);
  objects : list BlockStructureModel;
  log : list LogRecord;
}.

Definition set_cache (c : gmap string (bytes * Z)) (w : World) : World :=
  {| STORAGE_BACKING_FOR_CACHE := STORAGE_BACKING_FOR_CACHE w;
     _cache := c; objects := objects w; log := log w |}.

Definition set_objects (o : list BlockStructureModel) (w : World) : World :=
  {| STORAGE_BACKING_FOR_CACHE := STORAGE_BACKING_FOR_CACHE w;
     _cache := _cache w; objects := o; log := log w |}.

Definition set_log (l : list LogRecord) (w : World) : World :=
  {| STORAGE_BACKING_FOR_CACHE := STORAGE_BACKING_FOR_CACHE w;
     _cache := _cache w; objects := objects w; log := l |}.

(** ** The monad of the methods *)

Definition Py (A : Type) : Type := World -> (Exn + A) * World.

#[global] Instance Py_ret : MRet Py := fun A a w => (inr a, w).

#[global] Instance Py_bind : MBind Py := fun A B f c w =>
  match c w with
  | (inr a, w') => f a w'
  | (inl e, w') => (inl e, w')
  end.

Definition raise {A} (e : Exn) : Py A := fun w => (inl e, w).

(** [try: c except BlockStructureNotFound: h]. *)
Definition except_BlockStructureNotFound {A} (c h : Py A) : Py A := fun w =>
  match c w with
  | (inl (BlockStructureNotFound _), w') => h w'
  | r => r
  end.

(** [try: c except cls.DoesNotExist: h]. *)
Definition except_DoesNotExist {A} (c h : Py A) : Py A := fun w =>
  match c w with
  | (inl DoesNotExist, w') => h w'
  | r => r
  end.

Definition logger_info (r : LogRecord) : Py unit := fun w =>
  (inr tt, set_log (log w ++ [r]) w).

(** [config.is_enabled(config.STORAGE_BACKING_FOR_CACHE)]. *)
Definition config_is_enabled : Py bool := fun w =>
  (inr (STORAGE_BACKING_FOR_CACHE w), w).

(** ** The Django cache client behind [self._cache] *)

Definition cache_get (key : string) : Py (option bytes) := fun w =>
  (inr (fst <$> _cache w !! key), w).

Definition cache_set (key : string) (value : bytes) (timeout : Z) : Py unit :=
  fun w => (inr tt, set_cache (<[key := (value, timeout)]> (_cache w)) w).

Definition cache_delete (key : string) : Py unit := fun w =>
  (inr tt, set_cache (delete key (_cache w)) w).

(** [not serialized_data] on what [cache.get] returned: [None] and the
    empty payload are the falsy values. *)
Definition falsy (v : option bytes) : bool :=
  match v with
  | None | Some [] => true
  | Some (_ :: _) => false
  end.

(** ** The manager [models.BlockStructure.objects] (Django) *)

(** [objects.get] with a lookup: the one row that matches. *)
Definition objects_get (lookup : BlockStructureModel -> bool)
  : Py BlockStructureModel := fun w =>
  match filter (fun m => Is_true (lookup m)) (objects w) with
  | [] => (inl DoesNotExist, w)
  | [m] => (inr m, w)
  | _ :: _ :: _ => (inl MultipleObjectsReturned, w)
  end.

(** Values for the five fields of a row, each of the type of its field:
    a usage key, text for the three [CharField]s, and a time stamp or
    [None] for the [DateTimeField], which is nullable. *)
Record FieldValues := {
  fv_data_usage_key : UsageKey;
  fv_data_version : string;
  fv_data_edit_timestamp : option DateTime;
  fv_transformers_schema_version : string;
  fv_block_structure_schema_version : string;
}.

(** The keyword arguments of a call of [update_or_create]: values of
    the fields' types, or, as [_create_or_update_model] passes them, one
    block structure object for every field. *)
Inductive Kwargs :=
| Fields (values : FieldValues)
| EveryField (block_structure : BlockStructureBlockData).

Definition timestamp_value (t : option DateTime) : PyVal :=
  match t with
  | Some d => PyDateTime d
  | None => PyNone
  end.

Definition matches (v : FieldValues) (m : BlockStructureModel) : bool :=
  bool_decide (data_usage_key m = PyUsageKey (fv_data_usage_key v))
  && bool_decide (data_version m = PyUnicode (fv_data_version v))
  && bool_decide (data_edit_timestamp m
                  = timestamp_value (fv_data_edit_timestamp v))
  && bool_decide (transformers_schema_version m
                  = PyUnicode (fv_transformers_schema_version v))
  && bool_decide (block_structure_schema_version m
                  = PyUnicode (fv_block_structure_schema_version v)).

Definition new_row (v : FieldValues) : BlockStructureModel :=
  {| data_usage_key := PyUsageKey (fv_data_usage_key v);
     data_version := PyUnicode (fv_data_version v);
     data_edit_timestamp := timestamp_value (fv_data_edit_timestamp v);
     transformers_schema_version :=
       PyUnicode (fv_transformers_schema_version v);
     block_structure_schema_version :=
       PyUnicode (fv_block_structure_schema_version v);
     data := None |}.

(** [objects.update_or_create] without [defaults]. The keyword arguments
    are prepared for the lookup first: a block structure object is not a
    value of the usage key field or of the date-time field, and their
    preparation raises before any row is read or created. With values of
    the fields' types, the row that matches is saved as it is, otherwise a
    row is created from them; the row and whether it was created are
    returned. *)
Definition objects_update_or_create (kw : Kwargs)
  : Py (BlockStructureModel * bool) :=
  match kw with
  | EveryField _ => raise FieldPreparationError
  | Fields values =>
      except_DoesNotExist
        (m ← objects_get (matches values); mret (m, false))
        (fun w => (inr (new_row values, true),
                   set_objects (objects w ++ [new_row values]) w))
  end.

End DataModel.

(** ** models.py: the Django model [BlockStructure] *)

Module BlockStructure.
Section Model.
Context `{Collaborators}.

(** [get_serialized_data]: [self.data.read()]. Reading a file field
    that has no file raises [ValueError]. *)
Definition get_serialized_data (self : BlockStructureModel) : Py bytes :=
  match data self with
  | Some payload => mret payload
  | None => raise (ValueError "The 'data' attribute has no file associated with it.")
  end.

(** [get_current]: the row of the given usage key;
    [BlockStructureNotFound] when there is none. *)
Definition get_current (key : UsageKey) : Py BlockStructureModel :=
  except_DoesNotExist
    (objects_get (fun m => bool_decide (data_usage_key m = PyUsageKey key)))
    (raise (BlockStructureNotFound key)).

(** [update_or_create_with_data]: the body is the one call of
    [update_or_create]; [serialized_data] is not used and nothing is
    returned, so the caller receives Python's [None]. *)
Definition update_or_create_with_data (serialized_data : bytes)
    (kwargs : Kwargs) : Py (option BlockStructureModel) :=
  _ ← objects_update_or_create kwargs;
  mret None.

(** [delete]: the override is [pass]. *)
Definition delete (self : BlockStructureModel) : Py unit :=
  mret tt.

End Model.
End BlockStructure.

(** ** cache.py: the class [BlockStructureCache] *)

(** An actual argument of a call: given, or left out by the caller. *)
Inductive Arg (A : Type) :=
| Given (a : A)
| Missing.
Arguments Given {A} a.
Arguments Missing {A}.

Module BlockStructureCache.
Section Cache.
Context `{Collaborators}.

(** Calling a function of two required positional parameters: a
    parameter that is left without an argument raises [TypeError]
    before the body runs. *)
Definition call2 {A B C} (name : string) (f : A -> B -> Py C)
    (a : Arg A) (b : Arg B) : Py C :=
  match a, b with
  | Given x, Given y => f x y
  | _, _ => raise (TypeError name)
  end.

(** The field names that make up the key, in the order of the list in
    [_encode_root_cache_key]. *)
Definition KEY_FIELDS : list string :=
  [ "data_usage_key";
    "data_version";
    "data_edit_timestamp";
    "transformers_schema_version";
    "block_structure_schema_version" ].

(** [getattr(bs_model, field_name)] on a record, for a field that
    holds a value. *)
Definition getattr (bs_model : BlockStructureModel) (field_name : string)
  : Py PyVal :=
  if String.eqb field_name "data_usage_key" then
    mret (data_usage_key bs_model)
  else if String.eqb field_name "data_version" then
    mret (data_version bs_model)
  else if String.eqb field_name "data_edit_timestamp" then
    mret (data_edit_timestamp bs_model)
  else if String.eqb field_name "transformers_schema_version" then
    mret (transformers_schema_version bs_model)
  else if String.eqb field_name "block_structure_schema_version" then
    mret (block_structure_schema_version bs_model)
  else raise (AttributeError field_name).

(** [_encode_root_cache_key(cls, root_block_usage_key, bs_model)]. *)
Definition _encode_root_cache_key (root_block_usage_key : UsageKey)
    (bs_model : option BlockStructureModel) : Py string :=
  enabled ← config_is_enabled;
  if (enabled : bool) then
    match bs_model with
    | None => raise AssertionError
    | Some m =>
        parts ← mapM (fun field_name =>
                        value ← getattr m field_name;
                        mret (field_name +:+ "@" +:+ unicode value))
                     KEY_FIELDS;
        mret (String.concat ":" parts)
    end
  else
    mret ("v" +:+ unicode (PyInt VERSION) +:+ ".root.key."
          +:+ unicode (PyUsageKey root_block_usage_key)).

(** [_serialize]. *)
Definition _serialize (block_structure : BlockStructureBlockData) : Py bytes :=
  let data_to_cache :=
    (_block_relations block_structure,
     transformer_data block_structure,
     _block_data_map block_structure) in
  match zpickle data_to_cache with
  | inr payload => mret payload
  | inl msg => raise (CodecError msg)
  end.

(** Modelled from the spec: [BlockStructureFactory.create_new] is not
    among the sources; it rebuilds the in-memory block structure
    anchored at the root from the three tables. *)
Definition create_new (root_block_usage_key : UsageKey)
    (block_relations : Relations) (transformer_data : TransformerData)
    (block_data_map : BlockDataMap) : BlockStructureBlockData :=
  {| root_block_usage_key := root_block_usage_key;
     _block_relations := block_relations;
     transformer_data := transformer_data;
     _block_data_map := block_data_map |}.

(** [_deserialize]. *)
Definition _deserialize (serialized_data : bytes)
    (root_block_usage_key : UsageKey) : Py BlockStructureBlockData :=
  match zunpickle serialized_data with
  | inr (block_relations, transformer_data, block_data_map) =>
      mret (create_new root_block_usage_key
              block_relations transformer_data block_data_map)
  | inl msg => raise (CodecError msg)
  end.

(** [_get_from_store]. [bs_model] is Python's [None] or a record; a
    method call on [None] raises [AttributeError]. *)
Definition _get_from_store (root_block_usage_key : UsageKey)
    (bs_model : option BlockStructureModel) : Py bytes :=
  enabled ← config_is_enabled;
  if negb enabled then raise (BlockStructureNotFound root_block_usage_key)
  else
    serialized_data ←
      match bs_model with
      | Some m => BlockStructure.get_serialized_data m
      | None => raise (AttributeError "get_serialized_data")
      end;
    logger_info (LogReadStore root_block_usage_key (length serialized_data));;
    mret serialized_data.

(** [_get_from_cache]. *)
Definition _get_from_cache (root_block_usage_key : UsageKey)
    (bs_model : option BlockStructureModel) : Py bytes :=
  cache_key ← _encode_root_cache_key root_block_usage_key bs_model;
  serialized_data ← cache_get cache_key;
  if falsy serialized_data then
    logger_info (LogCacheMiss root_block_usage_key);;
    raise (BlockStructureNotFound root_block_usage_key)
  else
    let payload := default [] serialized_data in
    logger_info (LogReadCache root_block_usage_key (length payload));;
    mret payload.

(** [_add_to_cache]. *)
Definition _add_to_cache (block_structure : BlockStructureBlockData)
    (serialized_data : bytes) (bs_model : option BlockStructureModel)
  : Py unit :=
  cache_key ← _encode_root_cache_key
                (root_block_usage_key block_structure) bs_model;
  let timeout_in_seconds := (60 * 60 * 24)%Z in
  cache_set cache_key serialized_data timeout_in_seconds;;
  logger_info (LogWrote (root_block_usage_key block_structure)
                        (length serialized_data)).

(** [_create_or_update_model]: every keyword argument is the block
    structure itself. *)
Definition _create_or_update_model (block_structure : BlockStructureBlockData)
    (serialized_data : bytes) : Py (option BlockStructureModel) :=
  enabled ← config_is_enabled;
  if (enabled : bool) then
    BlockStructure.update_or_create_with_data serialized_data
      (EveryField block_structure)
  else mret None.

(** [_get_model]. *)
Definition _get_model (root_block_usage_key : UsageKey)
  : Py (option BlockStructureModel) :=
  enabled ← config_is_enabled;
  if (enabled : bool) then
    m ← BlockStructure.get_current root_block_usage_key;
    mret (Some m)
  else mret None.

(** The methods of the class that take a usage key and give the record
    ([self] apart), under the names the class body binds them to. *)
Definition model_getters
  : list (string * (UsageKey -> Py (option BlockStructureModel))) :=
  [ ("_get_model", _get_model) ].

(** [self.<name>] where such a method is called: an attribute that the
    class does not define raises [AttributeError]. *)
Definition self_model_getter (name : string)
  : Py (UsageKey -> Py (option BlockStructureModel)) :=
  match find (fun entry => String.eqb name (fst entry)) model_getters with
  | Some entry => mret (snd entry)
  | None => raise (AttributeError name)
  end.

(** [add]. *)
Definition add (block_structure : BlockStructureBlockData) : Py unit :=
  serialized_data ← _serialize block_structure;
  bs_model ← _create_or_update_model block_structure serialized_data;
  _add_to_cache block_structure serialized_data bs_model.

(** [get]. Line 70 calls [self._get_current_model]. *)
Definition get (root_block_usage_key : UsageKey)
  : Py BlockStructureBlockData :=
  _get_current_model ← self_model_getter "_get_current_model";
  bs_model ← _get_current_model root_block_usage_key;
  serialized_data ←
    except_BlockStructureNotFound
      (_get_from_cache root_block_usage_key bs_model)
      (_get_from_store root_block_usage_key bs_model);
  _deserialize serialized_data root_block_usage_key.

(** [delete]. Line 89 calls [_encode_root_cache_key] with the usage key
    alone; the argument is evaluated before [self._cache.delete] is
    called. *)
Definition delete (root_block_usage_key : UsageKey) : Py unit :=
  cache_key ← call2 "_encode_root_cache_key" _encode_root_cache_key
                (Given root_block_usage_key) Missing;
  cache_delete cache_key;;
  logger_info (LogDeleted root_block_usage_key).

End Cache.
End BlockStructureCache.

(** ** Vocabulary of the statements *)

Section Vocabulary.
Context `{Collaborators}.

(** The five "field_name@value" parts of a record, in key order. *)
Definition key_parts (m : BlockStructureModel) : list string :=
  [ "data_usage_key@" +:+ unicode (data_usage_key m);
    "data_version@" +:+ unicode (data_version m);
    "data_edit_timestamp@" +:+ unicode (data_edit_timestamp m);
    "transformers_schema_version@" +:+ unicode (transformers_schema_version m);
    "block_structure_schema_version@"
      +:+ unicode (block_structure_schema_version m) ].

(** Two records differ in exactly one of the five fields of the key,
    and that field renders differently. *)
Inductive differ_in_one_field (m1 m2 : BlockStructureModel) : Prop :=
| differ_in_data_usage_key :
    unicode (data_usage_key m1) <> unicode (data_usage_key m2) ->
    data_version m1 = data_version m2 ->
    data_edit_timestamp m1 = data_edit_timestamp m2 ->
    transformers_schema_version m1 = transformers_schema_version m2 ->
    block_structure_schema_version m1 = block_structure_schema_version m2 ->
    differ_in_one_field m1 m2
| differ_in_data_version :
    data_usage_key m1 = data_usage_key m2 ->
    unicode (data_version m1) <> unicode (data_version m2) ->
    data_edit_timestamp m1 = data_edit_timestamp m2 ->
    transformers_schema_version m1 = transformers_schema_version m2 ->
    block_structure_schema_version m1 = block_structure_schema_version m2 ->
    differ_in_one_field m1 m2
| differ_in_data_edit_timestamp :
    data_usage_key m1 = data_usage_key m2 ->
    data_version m1 = data_version m2 ->
    unicode (data_edit_timestamp m1) <> unicode (data_edit_timestamp m2) ->
    transformers_schema_version m1 = transformers_schema_version m2 ->
    block_structure_schema_version m1 = block_structure_schema_version m2 ->
    differ_in_one_field m1 m2
| differ_in_transformers_schema_version :
    data_usage_key m1 = data_usage_key m2 ->
    data_version m1 = data_version m2 ->
    data_edit_timestamp m1 = data_edit_timestamp m2 ->
    unicode (transformers_schema_version m1)
      <> unicode (transformers_schema_version m2) ->
    block_structure_schema_version m1 = block_structure_schema_version m2 ->
    differ_in_one_field m1 m2
| differ_in_block_structure_schema_version :
    data_usage_key m1 = data_usage_key m2 ->
    data_version m1 = data_version m2 ->
    data_edit_timestamp m1 = data_edit_timestamp m2 ->
    transformers_schema_version m1 = transformers_schema_version m2 ->
    unicode (block_structure_schema_version m1)
      <> unicode (block_structure_schema_version m2) ->
    differ_in_one_field m1 m2.

(** The tables that [_serialize] hands to the codec. *)
Definition tables (s : BlockStructureBlockData)
  : Relations * TransformerData * BlockDataMap :=
  (_block_relations s, transformer_data s, _block_data_map s).

(** The keyword arguments that [_create_or_update_model] passes. *)
Definition kwargs_of (s : BlockStructureBlockData) : Kwargs :=
  EveryField s.

(** The value that a call returned, [d] when it raised. *)
Definition from_inr {E A} (d : A) (r : E + A) : A :=
  match r with
  | inr a => a
  | inl _ => d
  end.

(** The fast-tier key of a root identifier in single-tier mode. *)
Definition volatile_key (root : UsageKey) : string :=
  "v" +:+ pretty VERSION +:+ ".root.key." +:+ unicode_key root.

End Vocabulary.

(** ** The two tiers of a world *)

Section Tiers.
Context `{Collaborators}.

(** The second world has the switch, the fast tier and the rows of the
    first: at most the log differs. *)
Definition same_tiers (w w' : World) : Prop :=
  STORAGE_BACKING_FOR_CACHE w' = STORAGE_BACKING_FOR_CACHE w
  /\ _cache w' = _cache w
  /\ objects w' = objects w.

(** Lines 72 to 75 of [get]: the payload from the fast tier, and from the
    record when the fast tier reports the root as not found. *)
Definition read_payload (root_block_usage_key : UsageKey)
    (bs_model : option BlockStructureModel) : Py bytes :=
  except_BlockStructureNotFound
    (BlockStructureCache._get_from_cache root_block_usage_key bs_model)
    (BlockStructureCache._get_from_store root_block_usage_key bs_model).

End Tiers.

(** ** A concrete set of collaborators

    Usage keys and time stamps are their own renderings, the three
    tables are byte strings, and the codec writes the first two tables
    behind a length byte each. Used to run the methods on examples. *)

Module Demo.

Definition section_of (table : bytes) : option bytes :=
  len ← Byte.of_nat (length table); Some (len :: table).

Definition demo_zpickle (tables : bytes * bytes * bytes) : string + bytes :=
  let '(relations, transformers, blocks) := tables in
  match section_of relations, section_of transformers with
  | Some r, Some t => inr (r ++ t ++ blocks)
  | _, _ => inl "table too long"
  end.

Definition take_section (payload : bytes) : option (bytes * bytes) :=
  match payload with
  | [] => None
  | len :: rest =>
      let n := Byte.to_nat len in
      if decide (n <= length rest) then Some (take n rest, drop n rest)
      else None
  end.

Definition demo_zunpickle (payload : bytes) : string + bytes * bytes * bytes :=
  match take_section payload with
  | Some (relations, rest) =>
      match take_section rest with
      | Some (transformers, blocks) => inr (relations, transformers, blocks)
      | None => inl "truncated payload"
      end
  | None => inl "truncated payload"
  end.

#[export] Instance collaborators : Collaborators := {|
  UsageKey := string;
  unicode_key := fun k => k;
  DateTime := string;
  unicode_datetime := fun d => d;
  Relations := bytes;
  TransformerData := bytes;
  BlockDataMap := bytes;
  zpickle := demo_zpickle;
  zunpickle := demo_zunpickle;
  VERSION := 2;
|}.

(** Three root identifiers. *)
Definition R1 : @UsageKey collaborators := "R1".
Definition R2 : @UsageKey collaborators := "R2".
Definition R9 : @UsageKey collaborators := "R9".

(** The block structure rooted at [R1]. *)
Definition s1 : BlockStructureBlockData :=
  {| root_block_usage_key := R1;
     _block_relations := [Byte.x01; Byte.x02] : Relations;
     transformer_data := [Byte.x78] : TransformerData;
     _block_data_map := [Byte.x61; Byte.x62] : BlockDataMap |}.

Definition payload1 : bytes :=
  [Byte.x02; Byte.x01; Byte.x02; Byte.x01; Byte.x78; Byte.x61; Byte.x62].

(** A record of [R1] whose file holds the payload of [s1]. *)
Definition record1 : BlockStructureModel :=
  {| data_usage_key := PyUsageKey R1;
     data_version := PyUnicode "v7";
     data_edit_timestamp := PyNone;
     transformers_schema_version := PyUnicode "3";
     block_structure_schema_version := PyUnicode "2";
     data := Some payload1 |}.

(** The single-tier world and the two-tier world, both empty. *)
Definition volatile : World :=
  {| STORAGE_BACKING_FOR_CACHE := false; _cache := ∅;
     objects := []; log := [] |}.

Definition backed : World :=
  {| STORAGE_BACKING_FOR_CACHE := true; _cache := ∅;
     objects := []; log := [] |}.

(** Another record of [R1], with a newer [data_version]. *)
Definition record2 : BlockStructureModel :=
  {| data_usage_key := PyUsageKey R1;
     data_version := PyUnicode "v8";
     data_edit_timestamp := PyNone;
     transformers_schema_version := PyUnicode "3";
     block_structure_schema_version := PyUnicode "2";
     data := Some payload1 |}.

(** The record of [R2] that agrees with [record1] in the four other
    fields. *)
Definition record1_of_R2 : BlockStructureModel :=
  {| data_usage_key := PyUsageKey R2;
     data_version := PyUnicode "v7";
     data_edit_timestamp := PyNone;
     transformers_schema_version := PyUnicode "3";
     block_structure_schema_version := PyUnicode "2";
     data := Some payload1 |}.

(** The values of the five fields of [record1]. *)
Definition fields1 : FieldValues :=
  {| fv_data_usage_key := R1;
     fv_data_version := "v7";
     fv_data_edit_timestamp := None;
     fv_transformers_schema_version := "3";
     fv_block_structure_schema_version := "2" |}.

(** Two records of different usage keys in which the text of one field
    continues in the next. *)
Definition record_a : BlockStructureModel :=
  {| data_usage_key := PyUsageKey ("x:data_version@y" : string);
     data_version := PyUnicode "z";
     data_edit_timestamp := PyNone;
     transformers_schema_version := PyUnicode "3";
     block_structure_schema_version := PyUnicode "2";
     data := None |}.

Definition record_b : BlockStructureModel :=
  {| data_usage_key := PyUsageKey ("x" : string);
     data_version := PyUnicode "y:data_version@z";
     data_edit_timestamp := PyNone;
     transformers_schema_version := PyUnicode "3";
     block_structure_schema_version := PyUnicode "2";
     data := None |}.

(** The two-tier world after the fast tier lost its entry: the record
    of [R1] with its file, and an empty cache. *)
Definition evicted : World :=
  {| STORAGE_BACKING_FOR_CACHE := true; _cache := ∅;
     objects := [record1]; log := [] |}.

(** The single-tier world whose fast tier holds the empty payload
    under the key of [R1]. *)
Definition emptied : World :=
  {| STORAGE_BACKING_FOR_CACHE := false;
     _cache := {[ "v2.root.key.R1" := ([], 86400%Z) ]};
     objects := []; log := [] |}.

(** The single-tier world whose fast tier holds the payload of [s1]
    under the key of [R1]. *)
Definition cached : World :=
  {| STORAGE_BACKING_FOR_CACHE := false;
     _cache := {[ "v2.root.key.R1" := (payload1, 86400%Z) ]};
     objects := []; log := [] |}.

(** A block structure whose relations the demo codec refuses: the
    table is longer than a length byte can tell. *)
Definition s_long : BlockStructureBlockData :=
  {| root_block_usage_key := R2;
     _block_relations := replicate 256 Byte.x00 : Relations;
     transformer_data := [] : TransformerData;
     _block_data_map := [] : BlockDataMap |}.

(** The two-tier world with two rows of [R1]. *)
Definition duplicated : World :=
  {| STORAGE_BACKING_FOR_CACHE := true; _cache := ∅;
     objects := [record1; record2]; log := [] |}.

End Demo.

(** ** common/djangoapps/util/course.py *)

Module course.

(** What the function takes from elsewhere: the course keys of
    [opaque_keys] with their rendering, and [settings.LMS_ROOT_URL]. *)
Class Settings := {
  CourseKey : Type;
  CourseKey_eq_dec :: EqDecision CourseKey;
  unicode_course_key : CourseKey -> string;
  LMS_ROOT_URL : string;
}.

Section Course.
Context `{Settings}.

(** A row of [CourseOverview], with the attributes that the function
    reads. Both links may be [None]. *)
Record CourseOverview := {
  id : CourseKey;
  social_sharing_url : option string;
  marketing_url : option string;
}.

(** What a caller may pass as [course_key]: a course key, or a value
    that is not one. *)
Inductive Argument :=
| Key (k : CourseKey)
| Text (s : string)
| NoneValue.

Inductive Error :=
| AssertionError
| DoesNotExist
| MultipleObjectsReturned.

(** The truth value of a link in an [if]: [None] and the empty text are
    false. *)
Definition truthy (v : option string) : bool :=
  match v with
  | Some (String _ _) => true
  | Some EmptyString | None => false
  end.

(** [CourseOverview.objects.get(id=course_key)]. *)
Definition objects_get (objects : list CourseOverview) (course_key : CourseKey)
  : Error + CourseOverview :=
  match filter (fun o => id o = course_key) objects with
  | [] => inl DoesNotExist
  | [course_overview] => inr course_overview
  | _ :: _ :: _ => inl MultipleObjectsReturned
  end.

(** [get_lms_link_for_about_page], over the rows of [CourseOverview]. *)
Definition get_lms_link_for_about_page (objects : list CourseOverview)
    (course_key : Argument) : Error + string :=
  match course_key with
  | Key k =>
      match objects_get objects k with
      | inl e => inl e
      | inr course_overview =>
          let course_about_url :=
            if truthy (social_sharing_url course_overview) then
              default "" (social_sharing_url course_overview)
            else if truthy (marketing_url course_overview) then
              default "" (marketing_url course_overview)
            else
              LMS_ROOT_URL +:+ "/courses/" +:+ unicode_course_key k
                +:+ "/about" in
          inr course_about_url
      end
  | Text _ | NoneValue => inl AssertionError
  end.

(** A row in which a link that is the empty text is [None] instead. *)
Definition blank_link (v : option string) : option string :=
  if truthy v then v else None.

Definition blank (o : CourseOverview) : CourseOverview :=
  {| id := id o;
     social_sharing_url := blank_link (social_sharing_url o);
     marketing_url := blank_link (marketing_url o) |}.

End Course.

(** Course keys that are their own rendering, and three courses: one
    with both links, one with a marketing link and an empty sharing
    link, one with none. *)
#[export] Instance demo_settings : Settings := {|
  CourseKey := string;
  unicode_course_key := fun k => k;
  LMS_ROOT_URL := "https://lms.example.org";
|}.

Definition course_a : @CourseKey demo_settings := "course-v1:A+1+r".
Definition course_b : @CourseKey demo_settings := "course-v1:B+1+r".
Definition course_c : @CourseKey demo_settings := "course-v1:C+1+r".
Definition course_d : @CourseKey demo_settings := "course-v1:D+1+r".

Definition demo_courses : list CourseOverview :=
  [ {| id := course_a;
       social_sharing_url := Some "https://share.example.org/a";
       marketing_url := Some "https://www.example.org/a" |};
    {| id := course_b;
       social_sharing_url := Some "";
       marketing_url := Some "https://www.example.org/b" |};
    {| id := course_c;
       social_sharing_url := None;
       marketing_url := None |} ].

End course.

(** * Facts *)

(** ** Text: appending and joining *)

Lemma length_string_app (s t : string) :
  String.length (s +:+ t) = String.length s + String.length t.
Proof. induction s as [|c s IH]; simpl; [reflexivity | now rewrite IH]. Qed.

Lemma string_app_cancel_r (s1 s2 t : string) :
  s1 +:+ t = s2 +:+ t -> s1 = s2.
Proof.
  revert s2; induction s1 as [|c s1 IH]; intros [|d s2] E; simpl in E.
  - reflexivity.
  - apply (f_equal String.length) in E; simpl in E.
    rewrite !length_string_app in E; simpl in E; lia.
  - apply (f_equal String.length) in E; simpl in E.
    rewrite !length_string_app in E; simpl in E; lia.
  - injection E as -> E. f_equal. now apply IH.
Qed.

Lemma string_app_cancel_l (s t1 t2 : string) :
  s +:+ t1 = s +:+ t2 -> t1 = t2.
Proof. apply String.app_inj. Qed.

Lemma concat_cons_cons (sep x y : string) (l : list string) :
  String.concat sep (x :: y :: l) = x +:+ sep +:+ String.concat sep (y :: l).
Proof. reflexivity. Qed.

Lemma string_app_cons (c : ascii) (s t : string) :
  String c s +:+ t = String c (s +:+ t).
Proof. reflexivity. Qed.

Lemma string_app_assoc (s t u : string) : (s +:+ t) +:+ u = s +:+ t +:+ u.
Proof.
  induction s as [|c s IH]; [reflexivity |].
  rewrite !string_app_cons. f_equal. exact IH.
Qed.

(** Joining two lists that differ at one place gives different texts. *)
Lemma concat_differ_at (sep : string) (pre suf : list string) (x y : string) :
  x <> y ->
  String.concat sep (pre ++ x :: suf) <> String.concat sep (pre ++ y :: suf).
Proof.
  intros Hxy. induction pre as [|p pre IH].
  - destruct suf as [|z suf]; simpl app.
    + exact Hxy.
    + rewrite !concat_cons_cons. intros E.
      apply Hxy. eapply string_app_cancel_r. exact E.
  - intros E. apply IH. clear IH.
    destruct pre as [|q pre]; simpl app in *;
      rewrite !concat_cons_cons in E;
      apply string_app_cancel_l in E;
      apply string_app_cancel_l in E; exact E.
Qed.

Section KeyEncoder.
Context `{Collaborators}.
Import BlockStructureCache.

Lemma encode_storage_backed (w : World) (root : UsageKey)
    (m : BlockStructureModel) :
  STORAGE_BACKING_FOR_CACHE w = true ->
  _encode_root_cache_key root (Some m) w
  = (inr (String.concat ":" (key_parts m)), w).
Proof.
  intros Hflag.
  unfold _encode_root_cache_key, mbind, Py_bind, config_is_enabled.
  rewrite Hflag. reflexivity.
Qed.

Lemma encode_volatile (w : World) (root : UsageKey)
    (bs_model : option BlockStructureModel) :
  STORAGE_BACKING_FOR_CACHE w = false ->
  _encode_root_cache_key root bs_model w
  = (inr ("v" +:+ pretty VERSION +:+ ".root.key." +:+ unicode_key root), w).
Proof.
  intros Hflag.
  unfold _encode_root_cache_key, mbind, Py_bind, config_is_enabled.
  rewrite Hflag. reflexivity.
Qed.

Lemma encode_without_record (w : World) (root : UsageKey) :
  STORAGE_BACKING_FOR_CACHE w = true ->
  _encode_root_cache_key root None w = (inl AssertionError, w).
Proof.
  intros Hflag.
  unfold _encode_root_cache_key, mbind, Py_bind, config_is_enabled.
  rewrite Hflag. reflexivity.
Qed.

(** The key of §6 of the design, written out. *)
Lemma key_parts_format (m : BlockStructureModel) :
  String.concat ":" (key_parts m)
  = "data_usage_key@" +:+ unicode (data_usage_key m)
    +:+ ":data_version@" +:+ unicode (data_version m)
    +:+ ":data_edit_timestamp@" +:+ unicode (data_edit_timestamp m)
    +:+ ":transformers_schema_version@"
    +:+ unicode (transformers_schema_version m)
    +:+ ":block_structure_schema_version@"
    +:+ unicode (block_structure_schema_version m).
Proof.
  unfold key_parts. rewrite !concat_cons_cons. simpl String.concat.
  rewrite !string_app_assoc. reflexivity.
Qed.

(** C5. In storage-backed mode the key of a record is made of the five
    fields [data_usage_key], [data_version], [data_edit_timestamp],
    [transformers_schema_version] and [block_structure_schema_version],
    in this order, each as "field_name@value", joined by ":"; the root
    identifier passed along plays no part. *)
Theorem storage_backed_key_format (w : World) (root : UsageKey)
    (m : BlockStructureModel) :
  STORAGE_BACKING_FOR_CACHE w = true ->
  _encode_root_cache_key root (Some m) w
  = (inr (String.concat ":"
            [ "data_usage_key@" +:+ unicode (data_usage_key m);
              "data_version@" +:+ unicode (data_version m);
              "data_edit_timestamp@" +:+ unicode (data_edit_timestamp m);
              "transformers_schema_version@"
                +:+ unicode (transformers_schema_version m);
              "block_structure_schema_version@"
                +:+ unicode (block_structure_schema_version m) ]), w).
Proof. intros Hflag. now rewrite encode_storage_backed. Qed.

(** C6. With storage backing disabled the key is
    "v<VERSION>.root.key.<root>": the schema version constant and the
    rendering of the root identifier, whatever record is passed. *)
Theorem volatile_key_format (w : World) (root : UsageKey)
    (bs_model : option BlockStructureModel) :
  STORAGE_BACKING_FOR_CACHE w = false ->
  _encode_root_cache_key root bs_model w
  = (inr ("v" +:+ pretty VERSION +:+ ".root.key." +:+ unicode_key root), w).
Proof. apply encode_volatile. Qed.

End KeyEncoder.

Section KeySensitivity.
Context `{Collaborators}.
Import BlockStructureCache.

Lemma key_parts_differ (m1 m2 : BlockStructureModel) :
  differ_in_one_field m1 m2 ->
  String.concat ":" (key_parts m1) <> String.concat ":" (key_parts m2).
Proof.
  assert (Hpart : forall name a b : string,
             a <> b -> name +:+ a <> name +:+ b).
  { intros name a b Hab E. apply Hab. eapply string_app_cancel_l, E. }
  unfold key_parts.
  intros [Hd E2 E3 E4 E5 | E1 Hd E3 E4 E5 | E1 E2 Hd E4 E5
         | E1 E2 E3 Hd E5 | E1 E2 E3 E4 Hd].
  - rewrite E2, E3, E4, E5.
    apply (concat_differ_at ":" [] (_ :: _)), Hpart, Hd.
  - rewrite E1, E3, E4, E5.
    apply (concat_differ_at ":" [_] (_ :: _)), Hpart, Hd.
  - rewrite E1, E2, E4, E5.
    apply (concat_differ_at ":" [_; _] (_ :: _)), Hpart, Hd.
  - rewrite E1, E2, E3, E5.
    apply (concat_differ_at ":" [_; _; _] (_ :: _)), Hpart, Hd.
  - rewrite E1, E2, E3, E4.
    apply (concat_differ_at ":" [_; _; _; _] []), Hpart, Hd.
Qed.

(** C7. Two records that differ in exactly one of the five fields,
    rendered differently, have different storage-backed keys. Two root
    identifiers that render differently have different keys in both
    modes: in storage-backed mode, where the key carries the root
    identifier as the [data_usage_key] of its record, for the records of
    the two roots that agree in the four other fields; with storage
    backing disabled, whatever records are passed. *)
Theorem key_version_sensitivity :
  (forall (w : World) (root1 root2 : UsageKey) (m1 m2 : BlockStructureModel),
      STORAGE_BACKING_FOR_CACHE w = true ->
      differ_in_one_field m1 m2 ->
      fst (_encode_root_cache_key root1 (Some m1) w)
      <> fst (_encode_root_cache_key root2 (Some m2) w))
  /\ (forall (w : World) (root1 root2 : UsageKey) (m1 m2 : BlockStructureModel),
         STORAGE_BACKING_FOR_CACHE w = true ->
         unicode_key root1 <> unicode_key root2 ->
         data_usage_key m1 = PyUsageKey root1 ->
         data_usage_key m2 = PyUsageKey root2 ->
         data_version m1 = data_version m2 ->
         data_edit_timestamp m1 = data_edit_timestamp m2 ->
         transformers_schema_version m1 = transformers_schema_version m2 ->
         block_structure_schema_version m1 = block_structure_schema_version m2 ->
         fst (_encode_root_cache_key root1 (Some m1) w)
         <> fst (_encode_root_cache_key root2 (Some m2) w))
  /\ (forall (w : World) (root1 root2 : UsageKey)
             (bs_model1 bs_model2 : option BlockStructureModel),
         STORAGE_BACKING_FOR_CACHE w = false ->
         unicode_key root1 <> unicode_key root2 ->
         fst (_encode_root_cache_key root1 bs_model1 w)
         <> fst (_encode_root_cache_key root2 bs_model2 w)).
Proof.
  assert (Hfields : forall (w : World) (root1 root2 : UsageKey)
                           (m1 m2 : BlockStructureModel),
             STORAGE_BACKING_FOR_CACHE w = true ->
             differ_in_one_field m1 m2 ->
             fst (_encode_root_cache_key root1 (Some m1) w)
             <> fst (_encode_root_cache_key root2 (Some m2) w)).
  { intros w root1 root2 m1 m2 Hflag Hdiff.
    rewrite !encode_storage_backed by assumption. simpl fst.
    intros E. apply (key_parts_differ m1 m2 Hdiff).
    exact (f_equal (from_inr "") E). }
  split; [exact Hfields | split].
  - intros w root1 root2 m1 m2 Hflag Hroot Hk1 Hk2 Hv Ht Hts Hbs.
    apply Hfields; [exact Hflag|].
    apply differ_in_data_usage_key; try assumption.
    now rewrite Hk1, Hk2.
  - intros w root1 root2 bs1 bs2 Hflag Hroot.
    rewrite !encode_volatile by assumption. simpl fst.
    intros E. apply Hroot.
    apply (f_equal (from_inr "")) in E. simpl from_inr in E.
    do 3 apply string_app_cancel_l in E. exact E.
Qed.

End KeySensitivity.

(** ** The methods of the cache *)

Section Orchestrator.
Context `{Collaborators}.
Import BlockStructureCache.

(** Unfolds one layer of the monad. *)
Ltac run := unfold mbind, Py_bind, mret, Py_ret, raise.

Lemma serialize_payload (w : World) (s : BlockStructureBlockData)
    (payload : bytes) :
  zpickle (tables s) = inr payload ->
  _serialize s w = (inr payload, w).
Proof. unfold _serialize, tables. now intros ->. Qed.

Lemma update_or_create_keeps_cache (kw : Kwargs) (w : World) :
  _cache (snd (objects_update_or_create kw w)) = _cache w
  /\ STORAGE_BACKING_FOR_CACHE (snd (objects_update_or_create kw w))
     = STORAGE_BACKING_FOR_CACHE w.
Proof.
  destruct kw as [values|block_structure]; [|now split].
  unfold objects_update_or_create, except_DoesNotExist, objects_get.
  run. destruct (filter _ (objects w)) as [|m [|m' rest]]; now simpl.
Qed.

(** The attribute that line 70 of [get] calls is not defined by the
    class: the call raises before anything is read. *)
Lemma get_unresolved (w : World) (root : UsageKey) :
  get root w = (inl (AttributeError "_get_current_model"), w).
Proof. reflexivity. Qed.

(** Line 89 of [delete] leaves [bs_model] out of the call of the key
    encoder: the call raises before the cache is touched. *)
Lemma delete_arity (w : World) (root : UsageKey) :
  delete root w = (inl (TypeError "_encode_root_cache_key"), w).
Proof. reflexivity. Qed.

(** [add] in single-tier mode: one write, to the fast tier. *)
Lemma add_volatile (w : World) (s : BlockStructureBlockData)
    (payload : bytes) :
  STORAGE_BACKING_FOR_CACHE w = false ->
  zpickle (tables s) = inr payload ->
  add s w
  = (inr tt,
     set_log (log w ++ [LogWrote (root_block_usage_key s) (length payload)])
       (set_cache (<[volatile_key (root_block_usage_key s)
                     := (payload, 86400%Z)]> (_cache w)) w)).
Proof.
  intros Hflag Hz. unfold add. run.
  rewrite (serialize_payload w s payload Hz).
  unfold _create_or_update_model, config_is_enabled. run. rewrite Hflag.
  unfold _add_to_cache. run.
  rewrite encode_volatile by assumption. reflexivity.
Qed.

(** [add] in storage-backed mode: the block structure that is passed as
    every keyword argument is refused when [update_or_create] prepares
    it, and [add] ends there, with nothing written. *)
Lemma add_storage_backed (w : World) (s : BlockStructureBlockData)
    (payload : bytes) :
  STORAGE_BACKING_FOR_CACHE w = true ->
  zpickle (tables s) = inr payload ->
  add s w = (inl FieldPreparationError, w).
Proof.
  intros Hflag Hz. unfold add. run.
  rewrite (serialize_payload w s payload Hz).
  unfold _create_or_update_model, config_is_enabled. run. rewrite Hflag.
  reflexivity.
Qed.

(** In storage-backed mode [add] never returns normally. *)
Lemma add_storage_backed_raises (w : World) (s : BlockStructureBlockData) :
  STORAGE_BACKING_FOR_CACHE w = true ->
  exists e, fst (add s w) = inl e.
Proof.
  intros Hflag.
  destruct (zpickle (tables s)) as [msg|payload] eqn:Hz.
  - exists (CodecError msg). unfold add, _serialize. run.
    fold (tables s). now rewrite Hz.
  - exists FieldPreparationError.
    now rewrite (add_storage_backed w s payload).
Qed.

(** [update_or_create_with_data] has no [return]: what the caller
    receives, whenever the call returns, is [None]. *)
Lemma update_or_create_with_data_returns_none (w : World) (kw : Kwargs)
    (payload : bytes) (r : option BlockStructureModel) :
  fst (BlockStructure.update_or_create_with_data payload kw w) = inr r ->
  r = None.
Proof.
  unfold BlockStructure.update_or_create_with_data. run.
  destruct (objects_update_or_create kw w) as [[e|row] w']; simpl;
    [discriminate | now intros [= <-]].
Qed.

(** What [update_or_create_with_data] returned fails the assertion of
    the key encoder in storage-backed mode. *)
Lemma returned_record_fails_assertion (w : World) (kw : Kwargs)
    (payload : bytes) (r : option BlockStructureModel) (root : UsageKey) :
  STORAGE_BACKING_FOR_CACHE w = true ->
  fst (BlockStructure.update_or_create_with_data payload kw w) = inr r ->
  fst (_encode_root_cache_key root r
         (snd (BlockStructure.update_or_create_with_data payload kw w)))
  = inl AssertionError.
Proof.
  intros Hflag Hr.
  rewrite (update_or_create_with_data_returns_none w kw payload r Hr).
  rewrite encode_without_record; [reflexivity|].
  unfold BlockStructure.update_or_create_with_data. run.
  pose proof (update_or_create_keeps_cache kw w) as [_ Hf].
  destruct (objects_update_or_create kw w) as [[e|row] w']; simpl in *;
    congruence.
Qed.

(** [_get_from_cache]: a falsy answer of the cache, the absent entry
    or the empty payload, is the miss. *)
Lemma get_from_cache_falsy (w : World) (root : UsageKey)
    (bs_model : option BlockStructureModel) (key : string) :
  _encode_root_cache_key root bs_model w = (inr key, w) ->
  falsy (fst <$> _cache w !! key) = true ->
  _get_from_cache root bs_model w
  = (inl (BlockStructureNotFound root),
     set_log (log w ++ [LogCacheMiss root]) w).
Proof.
  intros Hkey Hfalsy. unfold _get_from_cache. run. rewrite Hkey.
  unfold cache_get. now rewrite Hfalsy.
Qed.

(** The key encoder reads the switch and nothing else of the world. *)
Lemma encode_reads_switch (w : World) (c : gmap string (bytes * Z))
    (root : UsageKey) (bs_model : option BlockStructureModel) :
  _encode_root_cache_key root bs_model (set_cache c w)
  = (fst (_encode_root_cache_key root bs_model w), set_cache c w).
Proof.
  unfold _encode_root_cache_key, config_is_enabled. run. simpl.
  destruct (STORAGE_BACKING_FOR_CACHE w), bs_model; reflexivity.
Qed.

(** [_get_from_cache]: the empty payload under the key and no entry
    under the key give the same outcome. *)
Lemma get_from_cache_empty_as_absent (w : World) (root : UsageKey)
    (bs_model : option BlockStructureModel) (key : string) (timeout : Z) :
  _encode_root_cache_key root bs_model w = (inr key, w) ->
  fst (_get_from_cache root bs_model
         (set_cache (<[key := ([], timeout)]> (_cache w)) w))
  = fst (_get_from_cache root bs_model
           (set_cache (base.delete key (_cache w)) w)).
Proof.
  intros Hkey.
  rewrite (get_from_cache_falsy (set_cache (<[key := _]> _) w)
             root bs_model key).
  - rewrite (get_from_cache_falsy (set_cache (base.delete key _) w)
               root bs_model key).
    + reflexivity.
    + now rewrite encode_reads_switch, Hkey.
    + unfold set_cache; simpl. now rewrite lookup_delete_eq.
  - now rewrite encode_reads_switch, Hkey.
  - unfold set_cache; simpl. now rewrite lookup_insert_eq.
Qed.

(** [_get_from_cache]: a payload that is not empty is returned. *)
Lemma get_from_cache_hit (w : World) (root : UsageKey)
    (bs_model : option BlockStructureModel) (key : string)
    (b : Byte.byte) (payload : bytes) (timeout : Z) :
  _encode_root_cache_key root bs_model w = (inr key, w) ->
  _cache w !! key = Some (b :: payload, timeout) ->
  _get_from_cache root bs_model w
  = (inr (b :: payload),
     set_log (log w ++ [LogReadCache root (length (b :: payload))]) w).
Proof.
  intros Hkey Hhit. unfold _get_from_cache. run. rewrite Hkey.
  unfold cache_get. now rewrite Hhit.
Qed.

(** [_get_from_store] without storage backing. *)
Lemma get_from_store_volatile (w : World) (root : UsageKey)
    (bs_model : option BlockStructureModel) :
  STORAGE_BACKING_FOR_CACHE w = false ->
  _get_from_store root bs_model w = (inl (BlockStructureNotFound root), w).
Proof.
  intros Hflag. unfold _get_from_store, config_is_enabled. run.
  now rewrite Hflag.
Qed.

(** [_get_from_store] with storage backing reads the file of the
    record. *)
Lemma get_from_store_backed (w : World) (root : UsageKey)
    (m : BlockStructureModel) (payload : bytes) :
  STORAGE_BACKING_FOR_CACHE w = true ->
  data m = Some payload ->
  _get_from_store root (Some m) w
  = (inr payload, set_log (log w ++ [LogReadStore root (length payload)]) w).
Proof.
  intros Hflag Hdata.
  unfold _get_from_store, config_is_enabled,
    BlockStructure.get_serialized_data. run.
  now rewrite Hflag, Hdata.
Qed.

(** [objects.get] on a table of one row that matches. *)
Lemma objects_get_single (w : World) (m : BlockStructureModel)
    (lookup : BlockStructureModel -> bool) :
  objects w = [m] ->
  lookup m = true ->
  objects_get lookup w = (inr m, w).
Proof.
  intros Hrows Hm. unfold objects_get. rewrite Hrows.
  rewrite filter_cons, filter_nil.
  destruct (decide (Is_true (lookup m))) as [_|Hno]; [reflexivity|].
  exfalso. apply Hno. now rewrite Hm.
Qed.

(** [_get_model] with storage backing and the one record of the root. *)
Lemma get_model_single_record (w : World) (root : UsageKey)
    (m : BlockStructureModel) :
  STORAGE_BACKING_FOR_CACHE w = true ->
  objects w = [m] ->
  data_usage_key m = PyUsageKey root ->
  _get_model root w = (inr (Some m), w).
Proof.
  intros Hflag Hrows Hkey.
  unfold _get_model, config_is_enabled, BlockStructure.get_current,
    except_DoesNotExist. run. rewrite Hflag.
  rewrite (objects_get_single w m); [reflexivity | assumption |].
  now apply bool_decide_eq_true.
Qed.

(** [_get_model] with storage backing and no record at all. *)
Lemma get_model_no_record (w : World) (root : UsageKey) :
  STORAGE_BACKING_FOR_CACHE w = true ->
  objects w = [] ->
  _get_model root w = (inl (BlockStructureNotFound root), w).
Proof.
  intros Hflag Hrows.
  unfold _get_model, config_is_enabled, BlockStructure.get_current,
    except_DoesNotExist, objects_get. run.
  now rewrite Hflag, Hrows.
Qed.

End Orchestrator.

(** ** The claims about [add], [get] and [delete] *)

Section Claims.
Context `{Collaborators}.
Import BlockStructureCache.

(** C1, where the code departs from it. In single-tier mode [add]
    of a structure whose tables the codec accepts returns normally and
    leaves the payload in the fast tier under the key of the root; the
    [get] of that root that follows returns no structure: it raises
    [AttributeError] for [_get_current_model]. *)
Theorem add_then_get_raises (w : World) (s : BlockStructureBlockData)
    (payload : bytes) :
  STORAGE_BACKING_FOR_CACHE w = false ->
  zpickle (tables s) = inr payload ->
  fst (add s w) = inr tt
  /\ _cache (snd (add s w)) !! volatile_key (root_block_usage_key s)
     = Some (payload, 86400%Z)
  /\ fst (get (root_block_usage_key s) (snd (add s w)))
     = inl (AttributeError "_get_current_model").
Proof.
  intros Hflag Hz. rewrite (add_volatile w s payload Hflag Hz).
  split; [reflexivity | split].
  - simpl. apply lookup_insert_eq.
  - now rewrite get_unresolved.
Qed.

(** C2, where the code departs from it. In storage-backed mode, when
    the codec succeeds, [add] does not return: [update_or_create] is
    called with the block structure itself as every keyword argument,
    the preparation of the fields refuses it, and [add] raises with
    nothing written, no row, no entry of the fast tier and no log. Where
    [update_or_create_with_data] does return, it returns [None], which
    the assertion of the key encoder refuses. *)
Theorem add_storage_backed_fails (w : World) (s : BlockStructureBlockData)
    (payload : bytes) :
  STORAGE_BACKING_FOR_CACHE w = true ->
  zpickle (tables s) = inr payload ->
  add s w = (inl FieldPreparationError, w)
  /\ forall (kw : Kwargs) (p : bytes) (r : option BlockStructureModel)
            (root : UsageKey),
       fst (BlockStructure.update_or_create_with_data p kw w) = inr r ->
       r = None
       /\ fst (_encode_root_cache_key root r
                 (snd (BlockStructure.update_or_create_with_data p kw w)))
          = inl AssertionError.
Proof.
  intros Hflag Hz. split.
  - now apply (add_storage_backed w s payload).
  - intros kw p r root Hr. split.
    + exact (update_or_create_with_data_returns_none w kw p r Hr).
    + now apply returned_record_fails_assertion.
Qed.

(** C3, where the code departs from it. In storage-backed mode, with
    the record of the root intact, its file holding the payload, and
    the fast tier empty, the record is found and [_get_from_store]
    reads the payload from it, yet [get] returns no structure: it
    raises [AttributeError] and reads neither tier. *)
Theorem get_after_eviction_raises (w : World) (root : UsageKey)
    (m : BlockStructureModel) (payload : bytes) :
  STORAGE_BACKING_FOR_CACHE w = true ->
  objects w = [m] ->
  data_usage_key m = PyUsageKey root ->
  data m = Some payload ->
  _cache w = ∅ ->
  _get_model root w = (inr (Some m), w)
  /\ fst (_get_from_store root (Some m) w) = inr payload
  /\ get root w = (inl (AttributeError "_get_current_model"), w).
Proof.
  intros Hflag Hrows Hkey Hdata _. split; [|split].
  - apply get_model_single_record; [assumption..|].
    now rewrite Hkey.
  - now rewrite (get_from_store_backed w root m payload).
  - apply get_unresolved.
Qed.

(** C4, where the code departs from it. [delete] raises [TypeError]
    for the call of the key encoder and removes nothing, from either
    tier; the [get] that follows raises [AttributeError]. *)
Theorem delete_removes_nothing (w : World) (root : UsageKey) :
  delete root w = (inl (TypeError "_encode_root_cache_key"), w)
  /\ get root (snd (delete root w))
     = (inl (AttributeError "_get_current_model"), w).
Proof. split; [apply delete_arity | reflexivity]. Qed.

(** C8, where the code departs from it. With nothing in the fast tier
    and no record, [get] raises [AttributeError] and not
    [BlockStructureNotFound]; it does not raise a codec error either. *)
Theorem get_never_added_raises (w : World) (root : UsageKey) :
  _cache w = ∅ ->
  objects w = [] ->
  fst (get root w) = inl (AttributeError "_get_current_model")
  /\ fst (get root w) <> inl (BlockStructureNotFound root)
  /\ forall msg, fst (get root w) <> inl (CodecError msg).
Proof.
  intros _ _. rewrite get_unresolved. simpl.
  split; [reflexivity | split; [discriminate | intros msg; discriminate]].
Qed.

(** C9, where the code departs from it. When the fast tier holds the
    empty payload under the key of the root, [_get_from_cache] raises
    [BlockStructureNotFound] as it does for an absent entry, but [get]
    does not come to it: it raises [AttributeError]. *)
Theorem get_falsy_payload_raises (w : World) (root : UsageKey)
    (bs_model : option BlockStructureModel) (key : string) (timeout : Z) :
  _encode_root_cache_key root bs_model w = (inr key, w) ->
  _cache w !! key = Some ([], timeout) ->
  fst (_get_from_cache root bs_model w) = inl (BlockStructureNotFound root)
  /\ fst (get root w) = inl (AttributeError "_get_current_model").
Proof.
  intros Hkey Hempty. split.
  - rewrite (get_from_cache_falsy w root bs_model key Hkey); [reflexivity|].
    now rewrite Hempty.
  - now rewrite get_unresolved.
Qed.

(** C10. [delete] of a record does nothing: it returns normally and
    the rows, their files, the fast tier, the switch and the log are as
    they were. *)
Theorem model_delete_keeps_world (w : World) (m : BlockStructureModel) :
  BlockStructure.delete m w = (inr tt, w)
  /\ objects (snd (BlockStructure.delete m w)) = objects w
  /\ (forall row, row ∈ objects w ->
        row ∈ objects (snd (BlockStructure.delete m w)))
  /\ _cache (snd (BlockStructure.delete m w)) = _cache w.
Proof.
  unfold BlockStructure.delete, mret, Py_ret. simpl.
  split; [reflexivity | split; [reflexivity | split]].
  - intros row Hrow. exact Hrow.
  - reflexivity.
Qed.

End Claims.

(** ** The statements on the concrete collaborators *)

Section Examples.
Import Demo BlockStructureCache.

Lemma storage_backed_key_format_witness :
  STORAGE_BACKING_FOR_CACHE backed = true
  /\ _encode_root_cache_key R1 (Some record1) backed
     = (inr "data_usage_key@R1:data_version@v7:data_edit_timestamp@None:transformers_schema_version@3:block_structure_schema_version@2",
        backed).
Proof.
  split; [reflexivity|].
  apply (storage_backed_key_format backed R1 record1).
  reflexivity.
Defined.

Lemma volatile_key_format_witness :
  STORAGE_BACKING_FOR_CACHE volatile = false
  /\ _encode_root_cache_key R1 None volatile
     = (inr "v2.root.key.R1", volatile).
Proof.
  split; [reflexivity|].
  apply (volatile_key_format volatile R1 None).
  reflexivity.
Defined.

Lemma key_version_sensitivity_witness :
  (STORAGE_BACKING_FOR_CACHE backed = true
   /\ differ_in_one_field record1 record2
   /\ fst (_encode_root_cache_key R1 (Some record1) backed)
      <> fst (_encode_root_cache_key R1 (Some record2) backed))
  /\ (unicode_key R1 <> unicode_key R2
      /\ data_usage_key record1 = PyUsageKey R1
      /\ data_usage_key record1_of_R2 = PyUsageKey R2
      /\ fst (_encode_root_cache_key R1 (Some record1) backed)
         <> fst (_encode_root_cache_key R2 (Some record1_of_R2) backed))
  /\ (STORAGE_BACKING_FOR_CACHE volatile = false
      /\ fst (_encode_root_cache_key R1 None volatile)
         <> fst (_encode_root_cache_key R2 None volatile)).
Proof.
  assert (Hdiff : differ_in_one_field record1 record2).
  { apply differ_in_data_version; try reflexivity. simpl. discriminate. }
  assert (Hroots : unicode_key R1 <> unicode_key R2).
  { simpl. discriminate. }
  destruct key_version_sensitivity as (Hfields & Hrecords & Hroot).
  split; [|split].
  - split; [reflexivity | split; [exact Hdiff|]].
    apply Hfields; [reflexivity | exact Hdiff].
  - split; [exact Hroots | split; [reflexivity | split; [reflexivity|]]].
    apply Hrecords; try reflexivity. exact Hroots.
  - split; [reflexivity|].
    apply Hroot; [reflexivity | exact Hroots].
Defined.

(** The join is not injective on records: two records of different
    usage keys that differ in two fields can have the same key. *)
Lemma key_collision_across_records :
  unicode (data_usage_key record_a) <> unicode (data_usage_key record_b)
  /\ _encode_root_cache_key R1 (Some record_a) backed
     = _encode_root_cache_key R1 (Some record_b) backed.
Proof. split; [simpl; discriminate | reflexivity]. Qed.

Lemma add_then_get_raises_witness :
  STORAGE_BACKING_FOR_CACHE volatile = false
  /\ zpickle (tables s1) = inr payload1
  /\ fst (add s1 volatile) = inr tt
  /\ _cache (snd (add s1 volatile)) !! "v2.root.key.R1"
     = Some (payload1, 86400%Z)
  /\ fst (get R1 (snd (add s1 volatile)))
     = inl (AttributeError "_get_current_model").
Proof.
  split; [reflexivity | split; [reflexivity|]].
  apply (add_then_get_raises volatile s1 payload1); reflexivity.
Defined.

Lemma add_storage_backed_fails_witness :
  add s1 backed = (inl FieldPreparationError, backed)
  /\ forall (kw : Kwargs) (p : bytes) (r : option BlockStructureModel)
            (root : UsageKey),
       fst (BlockStructure.update_or_create_with_data p kw backed) = inr r ->
       r = None
       /\ fst (_encode_root_cache_key root r
                 (snd (BlockStructure.update_or_create_with_data p kw backed)))
          = inl AssertionError.
Proof.
  apply (add_storage_backed_fails backed s1 payload1); reflexivity.
Defined.

Lemma get_after_eviction_raises_witness :
  _get_model R1 evicted = (inr (Some record1), evicted)
  /\ fst (_get_from_store R1 (Some record1) evicted)
     = inr payload1
  /\ get R1 evicted
     = (inl (AttributeError "_get_current_model"), evicted).
Proof.
  apply (get_after_eviction_raises evicted R1 record1 payload1);
    reflexivity.
Defined.

Lemma get_never_added_raises_witness :
  fst (get R9 backed)
  = inl (AttributeError "_get_current_model")
  /\ fst (get R9 backed)
     <> inl (BlockStructureNotFound R9)
  /\ forall msg, fst (get R9 backed) <> inl (CodecError msg).
Proof.
  apply (get_never_added_raises backed R9); reflexivity.
Defined.

Lemma get_falsy_payload_raises_witness :
  fst (_get_from_cache R1 None emptied)
  = inl (BlockStructureNotFound R1)
  /\ fst (get R1 emptied)
     = inl (AttributeError "_get_current_model").
Proof.
  apply (get_falsy_payload_raises emptied R1 None
           "v2.root.key.R1" 86400%Z); reflexivity.
Defined.

End Examples.

(** ** The fast tier: writing and reading back *)

Section CachePaths.
Context `{Collaborators}.
Import BlockStructureCache.

Ltac run := unfold mbind, Py_bind, mret, Py_ret, raise.

Lemma encode_keeps_world (w : World) (root : UsageKey)
    (bs_model : option BlockStructureModel) :
  snd (_encode_root_cache_key root bs_model w) = w.
Proof.
  unfold _encode_root_cache_key, config_is_enabled. run.
  destruct (STORAGE_BACKING_FOR_CACHE w), bs_model; reflexivity.
Qed.

Lemma encode_same_switch (w w' : World) (root : UsageKey)
    (bs_model : option BlockStructureModel) :
  STORAGE_BACKING_FOR_CACHE w' = STORAGE_BACKING_FOR_CACHE w ->
  _encode_root_cache_key root bs_model w'
  = (fst (_encode_root_cache_key root bs_model w), w').
Proof.
  intros E. unfold _encode_root_cache_key, config_is_enabled. run.
  rewrite E. destruct (STORAGE_BACKING_FOR_CACHE w), bs_model; reflexivity.
Qed.

Lemma encode_resolved (w : World) (root : UsageKey)
    (bs_model : option BlockStructureModel) (key : string) :
  fst (_encode_root_cache_key root bs_model w) = inr key ->
  _encode_root_cache_key root bs_model w = (inr key, w).
Proof.
  intros E.
  rewrite (surjective_pairing (_encode_root_cache_key root bs_model w)).
  now rewrite E, encode_keeps_world.
Qed.

Lemma encode_unresolved (w : World) (root : UsageKey)
    (bs_model : option BlockStructureModel) (e : Exn) :
  fst (_encode_root_cache_key root bs_model w) = inl e ->
  _encode_root_cache_key root bs_model w = (inl e, w).
Proof.
  intros E.
  rewrite (surjective_pairing (_encode_root_cache_key root bs_model w)).
  now rewrite E, encode_keeps_world.
Qed.

Lemma add_to_cache_resolved (w : World) (s : BlockStructureBlockData)
    (payload : bytes) (bs_model : option BlockStructureModel) (key : string) :
  fst (_encode_root_cache_key (root_block_usage_key s) bs_model w) = inr key ->
  _add_to_cache s payload bs_model w
  = (inr tt,
     set_log (log w ++ [LogWrote (root_block_usage_key s) (length payload)])
       (set_cache (<[key := (payload, 86400%Z)]> (_cache w)) w)).
Proof.
  intros E. unfold _add_to_cache. run.
  now rewrite (encode_resolved _ _ _ _ E).
Qed.

Lemma add_to_cache_unresolved (w : World) (s : BlockStructureBlockData)
    (payload : bytes) (bs_model : option BlockStructureModel) (e : Exn) :
  fst (_encode_root_cache_key (root_block_usage_key s) bs_model w) = inl e ->
  _add_to_cache s payload bs_model w = (inl e, w).
Proof.
  intros E. unfold _add_to_cache. run.
  now rewrite (encode_unresolved _ _ _ _ E).
Qed.

Lemma get_from_cache_run (w : World) (root : UsageKey)
    (bs_model : option BlockStructureModel) (key : string) :
  fst (_encode_root_cache_key root bs_model w) = inr key ->
  _get_from_cache root bs_model w
  = match fst <$> _cache w !! key with
    | Some (b :: payload) =>
        (inr (b :: payload),
         set_log (log w ++ [LogReadCache root (length (b :: payload))]) w)
    | Some [] | None =>
        (inl (BlockStructureNotFound root),
         set_log (log w ++ [LogCacheMiss root]) w)
    end.
Proof.
  intros E. unfold _get_from_cache. run.
  rewrite (encode_resolved _ _ _ _ E). unfold cache_get.
  destruct (_cache w !! key) as [[[|b payload] timeout]|]; reflexivity.
Qed.

Lemma get_from_cache_unresolved (w : World) (root : UsageKey)
    (bs_model : option BlockStructureModel) (e : Exn) :
  fst (_encode_root_cache_key root bs_model w) = inl e ->
  _get_from_cache root bs_model w = (inl e, w).
Proof.
  intros E. unfold _get_from_cache. run.
  now rewrite (encode_unresolved _ _ _ _ E).
Qed.

(** The key under which a read resolves after a write is the key
    under which it resolved before. *)
Lemma encode_after_write (w : World) (s : BlockStructureBlockData)
    (payload : bytes) (bs_model1 bs_model2 : option BlockStructureModel)
    (root : UsageKey) :
  fst (_encode_root_cache_key root bs_model2
         (snd (_add_to_cache s payload bs_model1 w)))
  = fst (_encode_root_cache_key root bs_model2 w).
Proof.
  destruct (fst (_encode_root_cache_key (root_block_usage_key s) bs_model1 w))
    as [e|key] eqn:E.
  - now rewrite (add_to_cache_unresolved _ _ _ _ _ E).
  - rewrite (add_to_cache_resolved _ _ _ _ _ E). simpl snd.
    now rewrite (encode_same_switch w).
Qed.

(** A write under one key leaves the outcome of a read under another
    key as it was. *)
Lemma write_then_read_other_key (w : World) (s : BlockStructureBlockData)
    (payload : bytes) (bs_model1 bs_model2 : option BlockStructureModel)
    (root : UsageKey) (key1 key2 : string) :
  fst (_encode_root_cache_key (root_block_usage_key s) bs_model1 w) = inr key1 ->
  fst (_encode_root_cache_key root bs_model2 w) = inr key2 ->
  key1 <> key2 ->
  fst (_get_from_cache root bs_model2
         (snd (_add_to_cache s payload bs_model1 w)))
  = fst (_get_from_cache root bs_model2 w).
Proof.
  intros E1 E2 Hne.
  rewrite (get_from_cache_run w root bs_model2 key2 E2).
  rewrite (get_from_cache_run _ root bs_model2 key2)
    by now rewrite encode_after_write.
  rewrite (add_to_cache_resolved _ _ _ _ _ E1). simpl snd. simpl _cache.
  rewrite lookup_insert_ne by exact Hne.
  destruct (_cache w !! key2) as [[[|b p] t]|]; reflexivity.
Qed.

(** X1. A payload that is not empty, written by [_add_to_cache] under a
    key that resolves, is what [_get_from_cache] returns for the same
    root and record right after. *)
Theorem cache_write_then_read (w : World) (s : BlockStructureBlockData)
    (payload : bytes) (bs_model : option BlockStructureModel) (key : string) :
  fst (_encode_root_cache_key (root_block_usage_key s) bs_model w) = inr key ->
  payload <> [] ->
  fst (_get_from_cache (root_block_usage_key s) bs_model
         (snd (_add_to_cache s payload bs_model w)))
  = inr payload.
Proof.
  intros E Hne.
  rewrite (get_from_cache_run _ _ bs_model key)
    by now rewrite encode_after_write.
  rewrite (add_to_cache_resolved _ _ _ _ _ E). simpl snd. simpl _cache.
  rewrite lookup_insert_eq. simpl.
  destruct payload as [|b payload]; [contradiction | reflexivity].
Qed.

(** X2. An empty payload written by [_add_to_cache] is stored, but the
    [_get_from_cache] that follows reports the root as not found. *)
Theorem cache_write_empty_reads_as_miss (w : World)
    (s : BlockStructureBlockData) (bs_model : option BlockStructureModel)
    (key : string) :
  fst (_encode_root_cache_key (root_block_usage_key s) bs_model w) = inr key ->
  _cache (snd (_add_to_cache s [] bs_model w)) !! key = Some ([], 86400%Z)
  /\ fst (_get_from_cache (root_block_usage_key s) bs_model
            (snd (_add_to_cache s [] bs_model w)))
     = inl (BlockStructureNotFound (root_block_usage_key s)).
Proof.
  intros E.
  rewrite (get_from_cache_run _ _ bs_model key)
    by now rewrite encode_after_write.
  rewrite (add_to_cache_resolved _ _ _ _ _ E). simpl snd. simpl _cache.
  rewrite lookup_insert_eq. split; reflexivity.
Qed.

(** X3. In storage-backed mode a write made under one record is not
    seen by a read made under a record that differs from it in one of
    the five fields: the read has the outcome it had before the write. *)
Theorem cache_write_unseen_by_other_version (w : World)
    (s : BlockStructureBlockData) (payload : bytes)
    (m1 m2 : BlockStructureModel) (root : UsageKey) :
  STORAGE_BACKING_FOR_CACHE w = true ->
  differ_in_one_field m1 m2 ->
  fst (_get_from_cache root (Some m2)
         (snd (_add_to_cache s payload (Some m1) w)))
  = fst (_get_from_cache root (Some m2) w).
Proof.
  intros Hflag Hdiff.
  apply (write_then_read_other_key w s payload (Some m1) (Some m2) root
           (String.concat ":" (key_parts m1)) (String.concat ":" (key_parts m2))).
  - now rewrite encode_storage_backed.
  - now rewrite encode_storage_backed.
  - now apply key_parts_differ.
Qed.

(** X4. With storage backing disabled a write made for one root is not
    seen by a read for a root that renders differently. *)
Theorem cache_write_unseen_by_other_root (w : World)
    (s : BlockStructureBlockData) (payload : bytes)
    (bs_model1 bs_model2 : option BlockStructureModel) (root : UsageKey) :
  STORAGE_BACKING_FOR_CACHE w = false ->
  unicode_key (root_block_usage_key s) <> unicode_key root ->
  fst (_get_from_cache root bs_model2
         (snd (_add_to_cache s payload bs_model1 w)))
  = fst (_get_from_cache root bs_model2 w).
Proof.
  intros Hflag Hroot.
  apply (write_then_read_other_key w s payload bs_model1 bs_model2 root
           (volatile_key (root_block_usage_key s)) (volatile_key root)).
  - now rewrite encode_volatile.
  - now rewrite encode_volatile.
  - unfold volatile_key. intros E. apply Hroot.
    do 3 apply string_app_cancel_l in E. exact E.
Qed.

(** X5. Two writes for the same root and record leave the fast tier as
    the second write alone would. *)
Theorem cache_last_write_wins (w : World) (s : BlockStructureBlockData)
    (payload1 payload2 : bytes) (bs_model : option BlockStructureModel) :
  _cache (snd (_add_to_cache s payload2 bs_model
                 (snd (_add_to_cache s payload1 bs_model w))))
  = _cache (snd (_add_to_cache s payload2 bs_model w)).
Proof.
  destruct (fst (_encode_root_cache_key (root_block_usage_key s) bs_model w))
    as [e|key] eqn:E.
  - rewrite (add_to_cache_unresolved w _ payload1 _ _ E). simpl snd.
    reflexivity.
  - rewrite (add_to_cache_resolved w _ payload1 _ _ E). simpl snd.
    rewrite (add_to_cache_resolved w _ payload2 _ _ E).
    rewrite (add_to_cache_resolved _ _ payload2 _ key)
      by (rewrite (encode_same_switch w); [exact E | reflexivity]).
    simpl. apply insert_insert_eq.
Qed.

(** X6. [_add_to_cache] writes at most the one entry of the resolved
    key, with the timeout of one day, and touches neither the switch nor
    the rows; when the key does not resolve nothing is written. *)
Theorem add_to_cache_frame (w : World) (s : BlockStructureBlockData)
    (payload : bytes) (bs_model : option BlockStructureModel) :
  STORAGE_BACKING_FOR_CACHE (snd (_add_to_cache s payload bs_model w))
  = STORAGE_BACKING_FOR_CACHE w
  /\ objects (snd (_add_to_cache s payload bs_model w)) = objects w
  /\ match fst (_encode_root_cache_key (root_block_usage_key s) bs_model w) with
     | inr key =>
         _cache (snd (_add_to_cache s payload bs_model w))
         = <[key := (payload, 86400%Z)]> (_cache w)
     | inl e =>
         _add_to_cache s payload bs_model w = (inl e, w)
     end.
Proof.
  destruct (fst (_encode_root_cache_key (root_block_usage_key s) bs_model w))
    as [e|key] eqn:E.
  - rewrite (add_to_cache_unresolved _ _ _ _ _ E). repeat split.
  - rewrite (add_to_cache_resolved _ _ _ _ _ E). repeat split.
Qed.

End CachePaths.

(** ** Reading: the fast tier first, then the record *)

Section ReadPath.
Context `{Collaborators}.
Import BlockStructureCache.

Ltac run := unfold mbind, Py_bind, mret, Py_ret, raise.

Lemma same_tiers_refl (w : World) : same_tiers w w.
Proof. repeat split. Qed.

Lemma same_tiers_set_log (w : World) (l : list LogRecord) :
  same_tiers w (set_log l w).
Proof. repeat split. Qed.

Lemma get_from_cache_same_tiers (w : World) (root : UsageKey)
    (bs_model : option BlockStructureModel) :
  same_tiers w (snd (_get_from_cache root bs_model w)).
Proof.
  destruct (fst (_encode_root_cache_key root bs_model w)) as [e|key] eqn:E.
  - rewrite (get_from_cache_unresolved _ _ _ _ E). apply same_tiers_refl.
  - rewrite (get_from_cache_run _ _ _ _ E).
    destruct (fst <$> _cache w !! key) as [[|b p]|]; apply same_tiers_set_log.
Qed.

Lemma get_from_store_same_tiers (w : World) (root : UsageKey)
    (bs_model : option BlockStructureModel) :
  same_tiers w (snd (_get_from_store root bs_model w)).
Proof.
  unfold _get_from_store, config_is_enabled,
    BlockStructure.get_serialized_data. run.
  destruct (STORAGE_BACKING_FOR_CACHE w); simpl; [|apply same_tiers_refl].
  destruct bs_model as [m|]; [|apply same_tiers_refl].
  destruct (data m); [apply same_tiers_set_log | apply same_tiers_refl].
Qed.

Lemma get_model_same_world (w : World) (root : UsageKey) :
  snd (_get_model root w) = w.
Proof.
  unfold _get_model, config_is_enabled, BlockStructure.get_current,
    except_DoesNotExist, objects_get. run.
  destruct (STORAGE_BACKING_FOR_CACHE w); simpl; [|reflexivity].
  destruct (filter _ (objects w)) as [|m [|m' rest]]; reflexivity.
Qed.

(** X7. The three reading methods [_get_from_cache], [_get_from_store]
    and [_get_model] write to neither tier: the fast tier, the rows and
    the switch are as before, also after a miss that was served from the
    record, and [_get_model] leaves the log as well. *)
Theorem reads_keep_tiers (w : World) (root : UsageKey)
    (bs_model : option BlockStructureModel) :
  same_tiers w (snd (_get_from_cache root bs_model w))
  /\ same_tiers w (snd (_get_from_store root bs_model w))
  /\ same_tiers w (snd (read_payload root bs_model w))
  /\ snd (_get_model root w) = w.
Proof.
  split; [apply get_from_cache_same_tiers|].
  split; [apply get_from_store_same_tiers|].
  split; [|apply get_model_same_world].
  unfold read_payload, except_BlockStructureNotFound.
  pose proof (get_from_cache_same_tiers w root bs_model) as Hc.
  destruct (_get_from_cache root bs_model w) as [[e|payload] w1]; [|exact Hc].
  simpl in Hc.
  assert (Hs : same_tiers w1 (snd (_get_from_store root bs_model w1)))
    by apply get_from_store_same_tiers.
  destruct e; try exact Hc.
  destruct Hc as (Hc1 & Hc2 & Hc3), Hs as (Hs1 & Hs2 & Hs3).
  repeat split; congruence.
Qed.

(** X8. In storage-backed mode, when the fast tier has no payload, or an
    empty one, under the key of the record, the read takes what the file
    of the record holds, whatever it is, and does not write it to the
    fast tier. *)
Theorem read_falls_back_to_record (w : World) (root : UsageKey)
    (m : BlockStructureModel) (payload : bytes) :
  STORAGE_BACKING_FOR_CACHE w = true ->
  falsy (fst <$> _cache w !! String.concat ":" (key_parts m)) = true ->
  data m = Some payload ->
  read_payload root (Some m) w
  = (inr payload,
     set_log (log w ++ [LogCacheMiss root;
                        LogReadStore root (length payload)]) w).
Proof.
  intros Hflag Hmiss Hdata. unfold read_payload, except_BlockStructureNotFound.
  rewrite (get_from_cache_falsy w root (Some m) _
             (encode_storage_backed w root m Hflag) Hmiss).
  rewrite (get_from_store_backed _ root m payload) by assumption.
  unfold set_log. simpl. now rewrite <- app_assoc.
Qed.

(** X9. When the fast tier holds a payload that is not empty under the
    resolved key, the read returns it and the record is not consulted:
    its file may be missing or hold something else. *)
Theorem read_prefers_fast_tier (w : World) (root : UsageKey)
    (bs_model : option BlockStructureModel) (key : string)
    (b : Byte.byte) (payload : bytes) (timeout : Z) :
  fst (_encode_root_cache_key root bs_model w) = inr key ->
  _cache w !! key = Some (b :: payload, timeout) ->
  read_payload root bs_model w
  = (inr (b :: payload),
     set_log (log w ++ [LogReadCache root (length (b :: payload))]) w).
Proof.
  intros Hkey Hhit. unfold read_payload, except_BlockStructureNotFound.
  now rewrite (get_from_cache_hit w root bs_model key b payload timeout
                 (encode_resolved _ _ _ _ Hkey) Hhit).
Qed.

(** X10. With storage backing disabled, a miss in the fast tier ends
    the read with [BlockStructureNotFound] for the root, whatever rows
    exist. *)
Theorem read_single_tier_miss (w : World) (root : UsageKey)
    (bs_model : option BlockStructureModel) :
  STORAGE_BACKING_FOR_CACHE w = false ->
  falsy (fst <$> _cache w !! volatile_key root) = true ->
  read_payload root bs_model w
  = (inl (BlockStructureNotFound root),
     set_log (log w ++ [LogCacheMiss root]) w).
Proof.
  intros Hflag Hmiss. unfold read_payload, except_BlockStructureNotFound.
  rewrite (get_from_cache_falsy w root bs_model _
             (encode_volatile w root bs_model Hflag) Hmiss).
  now rewrite get_from_store_volatile.
Qed.

(** X11. In storage-backed mode a read without a record fails the
    assertion of the key encoder; the exception is not taken for a miss,
    and neither tier is read. *)
Theorem read_without_record_asserts (w : World) (root : UsageKey) :
  STORAGE_BACKING_FOR_CACHE w = true ->
  read_payload root None w = (inl AssertionError, w).
Proof.
  intros Hflag. unfold read_payload, except_BlockStructureNotFound.
  rewrite (get_from_cache_unresolved w root None AssertionError).
  - reflexivity.
  - now rewrite encode_without_record.
Qed.

(** X12. The keys of the two modes never meet: a key made from a
    record in storage-backed mode differs from every key made with
    storage backing disabled. *)
Theorem key_spaces_disjoint (w1 w2 : World) (root1 root2 : UsageKey)
    (m : BlockStructureModel) (bs_model : option BlockStructureModel) :
  STORAGE_BACKING_FOR_CACHE w1 = true ->
  STORAGE_BACKING_FOR_CACHE w2 = false ->
  fst (_encode_root_cache_key root1 (Some m) w1)
  <> fst (_encode_root_cache_key root2 bs_model w2).
Proof.
  intros H1 H2. rewrite encode_storage_backed, encode_volatile by assumption.
  cbn [fst]. rewrite key_parts_format. intros E.
  apply (f_equal (from_inr "")) in E. cbn [from_inr] in E.
  rewrite !string_app_cons in E. discriminate E.
Qed.

End ReadPath.

(** ** [add] and the rows of the model *)

Section AddAndRecords.
Context `{Collaborators}.
Import BlockStructureCache.

Ltac run := unfold mbind, Py_bind, mret, Py_ret, raise.

Lemma filter_nil_intro {A} (P : A -> Prop) `{!forall x, Decision (P x)}
    (l : list A) :
  (forall x, x ∈ l -> ~ P x) -> filter P l = [].
Proof.
  intros Hno. destruct (filter P l) as [|x rest] eqn:E; [reflexivity|].
  assert (Hx : x ∈ filter P l) by (rewrite E; left).
  apply list_elem_of_filter in Hx as [HP Hin]. now destruct (Hno x Hin).
Qed.

Lemma update_or_create_cases (v : FieldValues) (w : World) :
  objects_update_or_create (Fields v) w
  = match filter (fun m => Is_true (matches v m)) (objects w) with
    | [] => (inr (new_row v, true), set_objects (objects w ++ [new_row v]) w)
    | [m] => (inr (m, false), w)
    | _ :: _ :: _ => (inl MultipleObjectsReturned, w)
    end.
Proof.
  unfold objects_update_or_create, except_DoesNotExist, objects_get. run.
  destruct (filter _ (objects w)) as [|m [|m' rest]]; reflexivity.
Qed.

Lemma matches_new_row (v : FieldValues) : matches v (new_row v) = true.
Proof.
  unfold matches, new_row. simpl.
  now rewrite !bool_decide_eq_true_2 by reflexivity.
Qed.

Lemma get_current_cases (w : World) (key : UsageKey) :
  BlockStructure.get_current key w
  = match filter (fun m => Is_true (bool_decide
                                      (data_usage_key m = PyUsageKey key)))
                 (objects w) with
    | [] => (inl (BlockStructureNotFound key), w)
    | [m] => (inr m, w)
    | _ :: _ :: _ => (inl MultipleObjectsReturned, w)
    end.
Proof.
  unfold BlockStructure.get_current, except_DoesNotExist, objects_get.
  destruct (filter _ (objects w)) as [|m [|m' rest]]; reflexivity.
Qed.

Lemma add_codec_error (w : World) (s : BlockStructureBlockData) (msg : string) :
  zpickle (tables s) = inl msg ->
  add s w = (inl (CodecError msg), w).
Proof.
  intros Hz. unfold add, _serialize. run. fold (tables s). now rewrite Hz.
Qed.

(** X13. With storage backing disabled [add] neither reads nor writes
    the rows: the outcome and the fast tier are the same for every table,
    and the table is left as it was. *)
Theorem add_single_tier_ignores_rows (w : World) (s : BlockStructureBlockData)
    (rows : list BlockStructureModel) :
  STORAGE_BACKING_FOR_CACHE w = false ->
  add s (set_objects rows w)
  = (fst (add s w), set_objects rows (snd (add s w)))
  /\ objects (snd (add s w)) = objects w.
Proof.
  intros Hflag.
  destruct (zpickle (tables s)) as [msg|payload] eqn:Hz.
  - rewrite !(add_codec_error _ s msg Hz). split; reflexivity.
  - rewrite !(add_volatile _ s payload) by assumption. split; reflexivity.
Qed.

(** X14. In storage-backed mode [add] never returns normally and
    changes nothing, on any input: no row is created, the fast tier is
    not written and nothing is logged. *)
Theorem add_storage_backed_changes_nothing (w : World)
    (s : BlockStructureBlockData) :
  STORAGE_BACKING_FOR_CACHE w = true ->
  snd (add s w) = w /\ exists e, fst (add s w) = inl e.
Proof.
  intros Hflag.
  destruct (zpickle (tables s)) as [msg|payload] eqn:Hz.
  - rewrite (add_codec_error _ s msg Hz). split; [reflexivity|].
    now exists (CodecError msg).
  - rewrite (add_storage_backed w s payload Hflag Hz). split; [reflexivity|].
    now exists FieldPreparationError.
Qed.

(** X15. What [get_current] returns is a row of the table whose
    [data_usage_key] is the key asked for, and the call changes nothing. *)
Theorem get_current_sound (w w' : World) (key : UsageKey)
    (m : BlockStructureModel) :
  BlockStructure.get_current key w = (inr m, w') ->
  w' = w /\ m ∈ objects w /\ data_usage_key m = PyUsageKey key.
Proof.
  rewrite get_current_cases.
  destruct (filter _ (objects w)) as [|m0 [|m1 rest]] eqn:E; intros Hr;
    try discriminate Hr.
  injection Hr as Hm Hw. subst m0 w'. split; [reflexivity|].
  assert (Hin : m ∈ filter (fun m => Is_true (bool_decide
                              (data_usage_key m = PyUsageKey key))) (objects w))
    by (rewrite E; left).
  apply list_elem_of_filter in Hin as [HP Hin].
  split; [exact Hin | now apply bool_decide_unpack in HP].
Qed.

(** X16. [get_current] raises [BlockStructureNotFound] exactly when no
    row of the table has the key. *)
Theorem get_current_not_found_iff (w : World) (key : UsageKey) :
  fst (BlockStructure.get_current key w) = inl (BlockStructureNotFound key)
  <-> forall m, m ∈ objects w -> data_usage_key m <> PyUsageKey key.
Proof.
  rewrite get_current_cases. split.
  - destruct (filter _ (objects w)) as [|m0 [|m1 rest]] eqn:E; intros Hr;
      try discriminate Hr.
    intros m Hin Hkey.
    apply (filter_nil_not_elem_of _ _ m E); [|exact Hin].
    now apply bool_decide_pack.
  - intros Hno. rewrite filter_nil_intro; [reflexivity|].
    intros m Hin HP. apply (Hno m Hin). now apply bool_decide_unpack in HP.
Qed.

(** X17. When two rows of the table have the key, [get_current] raises
    [MultipleObjectsReturned]: only the missing row is turned into
    [BlockStructureNotFound]. *)
Theorem get_current_duplicates (w : World) (key : UsageKey)
    (m1 m2 : BlockStructureModel) (l1 l2 l3 : list BlockStructureModel) :
  objects w = l1 ++ m1 :: l2 ++ m2 :: l3 ->
  data_usage_key m1 = PyUsageKey key ->
  data_usage_key m2 = PyUsageKey key ->
  BlockStructure.get_current key w = (inl MultipleObjectsReturned, w).
Proof.
  intros Hrows H1 H2. rewrite get_current_cases, Hrows.
  rewrite filter_app, filter_cons_True by now apply bool_decide_pack.
  rewrite filter_app, filter_cons_True by now apply bool_decide_pack.
  destruct (filter _ l1) as [|a [|a' l1']]; simpl; try reflexivity.
  destruct (filter _ l2) as [|c l2']; reflexivity.
Qed.

(** X18. [_create_or_update_model] gives the caller no record and
    stores the payload nowhere: it leaves the rows, the fast tier and the
    log as they were on every input, and it returns only with storage
    backing disabled, and then [None]. *)
Theorem create_or_update_model_gives_no_record (w : World)
    (s : BlockStructureBlockData) (payload : bytes) :
  snd (_create_or_update_model s payload w) = w
  /\ forall bs_model,
       fst (_create_or_update_model s payload w) = inr bs_model ->
       bs_model = None /\ STORAGE_BACKING_FOR_CACHE w = false.
Proof.
  unfold _create_or_update_model, config_is_enabled,
    BlockStructure.update_or_create_with_data. run.
  destruct (STORAGE_BACKING_FOR_CACHE w); simpl.
  - split; [reflexivity | intros bs_model [=]].
  - split; [reflexivity | intros bs_model [= <-]; now split].
Qed.

(** X19. [update_or_create_with_data] is idempotent: once a call has
    returned, a second call with the same keyword arguments, whatever its
    payload, changes nothing. *)
Theorem update_or_create_with_data_idempotent (w : World) (kw : Kwargs)
    (payload payload' : bytes) (r : option BlockStructureModel) :
  fst (BlockStructure.update_or_create_with_data payload kw w) = inr r ->
  BlockStructure.update_or_create_with_data payload' kw
    (snd (BlockStructure.update_or_create_with_data payload kw w))
  = (inr None, snd (BlockStructure.update_or_create_with_data payload kw w)).
Proof.
  destruct kw as [v|block_structure]; [|discriminate].
  unfold BlockStructure.update_or_create_with_data. run.
  rewrite (update_or_create_cases v w).
  destruct (filter _ (objects w)) as [|m [|m' rest]] eqn:E;
    cbv beta iota; cbn [fst snd]; intros Hr; try discriminate Hr.
  - rewrite update_or_create_cases. cbn [objects set_objects].
    rewrite filter_app, E, filter_cons_True, filter_nil
      by (rewrite matches_new_row; exact I).
    reflexivity.
  - rewrite update_or_create_cases, E. reflexivity.
Qed.

(** X20. [update_or_create_with_data] does not store the payload it
    is given: with values of the fields' types that no row matches, it
    adds the row made of them, without a file, and returns [None]; reading
    the payload of that row, directly or by [_get_from_store] in
    storage-backed mode, raises [ValueError]. *)
Theorem created_record_has_no_file (w : World) (v : FieldValues)
    (payload : bytes) (root : UsageKey) :
  STORAGE_BACKING_FOR_CACHE w = true ->
  (forall m, m ∈ objects w -> matches v m = false) ->
  BlockStructure.update_or_create_with_data payload (Fields v) w
  = (inr None, set_objects (objects w ++ [new_row v]) w)
  /\ data (new_row v) = None
  /\ _get_from_store root (Some (new_row v))
       (set_objects (objects w ++ [new_row v]) w)
     = (inl (ValueError "The 'data' attribute has no file associated with it."),
        set_objects (objects w ++ [new_row v]) w).
Proof.
  intros Hflag Hno. split; [|split; [reflexivity|]].
  - unfold BlockStructure.update_or_create_with_data. run.
    rewrite update_or_create_cases.
    rewrite filter_nil_intro; [reflexivity|].
    intros m Hin HP. rewrite (Hno m Hin) in HP. exact HP.
  - unfold _get_from_store, config_is_enabled,
      BlockStructure.get_serialized_data. run. simpl. now rewrite Hflag.
Qed.

(** X24. When the codec refuses the tables, [add] raises its error
    and has written to neither tier, in both modes. *)
Theorem add_codec_failure_writes_nothing (w : World)
    (s : BlockStructureBlockData) (msg : string) :
  zpickle (tables s) = inl msg ->
  add s w = (inl (CodecError msg), w).
Proof.
  intros Hz. unfold add, _serialize. run. fold (tables s).
  rewrite Hz. reflexivity.
Qed.

End AddAndRecords.

(** ** course.py: the link to the about page *)

Section CourseFacts.
Context `{course.Settings}.
#[local] Existing Instance course.CourseKey_eq_dec.

Lemma string_app_not_empty (s t : string) : t <> "" -> s +:+ t <> "".
Proof.
  intros Ht E. apply (f_equal String.length) in E.
  rewrite length_string_app in E. simpl in E.
  destruct t; [now apply Ht | simpl in E; lia].
Qed.

Lemma truthy_blank_link (v : option string) :
  course.truthy (course.blank_link v) = course.truthy v.
Proof. unfold course.blank_link. now destruct (course.truthy v) eqn:E. Qed.

Lemma default_blank_link (v : option string) :
  course.truthy v = true ->
  default "" (course.blank_link v) = default "" v.
Proof. unfold course.blank_link. now intros ->. Qed.

Lemma filter_blank (k : course.CourseKey) (l : list course.CourseOverview) :
  filter (fun o => course.id o = k) (course.blank <$> l)
  = course.blank <$> filter (fun o => course.id o = k) l.
Proof.
  induction l as [|o l IH]; [reflexivity|].
  rewrite fmap_cons, !filter_cons. simpl course.id.
  destruct (decide (course.id o = k)); rewrite IH; reflexivity.
Qed.

(** X21. Whenever [get_lms_link_for_about_page] returns, the link is
    not empty: an empty sharing or marketing link is never handed out. *)
Theorem about_link_not_empty (rows : list course.CourseOverview)
    (course_key : course.Argument) (url : string) :
  course.get_lms_link_for_about_page rows course_key = inr url ->
  url <> "".
Proof.
  unfold course.get_lms_link_for_about_page.
  destruct course_key as [k| |]; try discriminate.
  destruct (course.objects_get rows k) as [e|o]; [discriminate|].
  destruct (course.social_sharing_url o) as [[|c s]|];
    destruct (course.marketing_url o) as [[|c' s']|]; simpl;
    intros [= <-]; try discriminate;
    do 3 apply string_app_not_empty; discriminate.
Qed.

(** X22. The errors of [get_lms_link_for_about_page]: it raises
    [AssertionError] exactly for an argument that is not a course key, and
    for a course key it raises [DoesNotExist] exactly when no row has the
    key; no default link is made up for a course without a row. *)
Theorem about_link_errors (rows : list course.CourseOverview) :
  (forall course_key,
      course.get_lms_link_for_about_page rows course_key
      = inl course.AssertionError
      <-> forall k, course_key <> course.Key k)
  /\ (forall k,
         course.get_lms_link_for_about_page rows (course.Key k)
         = inl course.DoesNotExist
         <-> forall o, o ∈ rows -> course.id o <> k).
Proof.
  split.
  - intros [k| |]; simpl; (split; [|try reflexivity]).
    + unfold course.objects_get.
      destruct (filter _ rows) as [|o [|o' rest]]; discriminate.
    + intros Hno. now destruct (Hno k).
    + intros _ k. discriminate.
    + intros _ k. discriminate.
  - intros k. simpl. unfold course.objects_get. split.
    + destruct (filter _ rows) as [|o [|o' rest]] eqn:E; try discriminate.
      intros _ o Hin Hid. exact (filter_nil_not_elem_of _ _ o E Hid Hin).
    + intros Hno. rewrite filter_nil_intro; [reflexivity|].
      intros o Hin Hid. exact (Hno o Hin Hid).
Qed.

(** X23. A link that is the empty text counts as a link that is not
    set: replacing every empty link of the table by [None] changes no
    outcome. *)
Theorem about_link_blank_insensitive (rows : list course.CourseOverview)
    (course_key : course.Argument) :
  course.get_lms_link_for_about_page (course.blank <$> rows) course_key
  = course.get_lms_link_for_about_page rows course_key.
Proof.
  destruct course_key as [k| |]; try reflexivity.
  unfold course.get_lms_link_for_about_page, course.objects_get.
  rewrite filter_blank.
  destruct (filter _ rows) as [|o [|o' rest]]; try reflexivity.
  simpl. rewrite !truthy_blank_link.
  destruct (course.truthy (course.social_sharing_url o)) eqn:Es.
  - now rewrite default_blank_link.
  - destruct (course.truthy (course.marketing_url o)) eqn:Em; [|reflexivity].
    now rewrite default_blank_link.
Qed.

End CourseFacts.

(** ** Further statements on the concrete collaborators *)

Section MoreExamples.
Import Demo BlockStructureCache.

Lemma cache_write_then_read_witness :
  fst (_get_from_cache R1 None (snd (_add_to_cache s1 payload1 None volatile)))
  = inr payload1.
Proof.
  apply (cache_write_then_read volatile s1 payload1 None "v2.root.key.R1");
    [reflexivity | discriminate].
Defined.

Lemma cache_write_empty_reads_as_miss_witness :
  _cache (snd (_add_to_cache s1 [] None volatile)) !! "v2.root.key.R1"
  = Some ([], 86400%Z)
  /\ fst (_get_from_cache R1 None (snd (_add_to_cache s1 [] None volatile)))
     = inl (BlockStructureNotFound R1).
Proof.
  apply (cache_write_empty_reads_as_miss volatile s1 None "v2.root.key.R1").
  reflexivity.
Defined.

Lemma cache_write_unseen_by_other_version_witness :
  fst (_get_from_cache R1 (Some record2)
         (snd (_add_to_cache s1 payload1 (Some record1) backed)))
  = fst (_get_from_cache R1 (Some record2) backed).
Proof.
  apply (cache_write_unseen_by_other_version backed s1 payload1
           record1 record2 R1); [reflexivity|].
  apply differ_in_data_version; try reflexivity. simpl. discriminate.
Defined.

Lemma cache_write_unseen_by_other_root_witness :
  fst (_get_from_cache R2 None (snd (_add_to_cache s1 payload1 None volatile)))
  = fst (_get_from_cache R2 None volatile).
Proof.
  apply (cache_write_unseen_by_other_root volatile s1 payload1 None None R2);
    [reflexivity | simpl; discriminate].
Defined.

Lemma read_falls_back_to_record_witness :
  read_payload R1 (Some record1) evicted
  = (inr payload1,
     set_log [LogCacheMiss R1; LogReadStore R1 7] evicted).
Proof.
  apply (read_falls_back_to_record evicted R1 record1 payload1); reflexivity.
Defined.

Lemma read_prefers_fast_tier_witness :
  read_payload R1 None cached
  = (inr payload1, set_log [LogReadCache R1 7] cached).
Proof.
  apply (read_prefers_fast_tier cached R1 None "v2.root.key.R1"
           Byte.x02 (tail payload1) 86400%Z); reflexivity.
Defined.

Lemma read_single_tier_miss_witness :
  read_payload R9 None volatile
  = (inl (BlockStructureNotFound R9), set_log [LogCacheMiss R9] volatile).
Proof.
  apply (read_single_tier_miss volatile R9 None); reflexivity.
Defined.

Lemma read_without_record_asserts_witness :
  read_payload R1 None backed = (inl AssertionError, backed).
Proof.
  apply (read_without_record_asserts backed R1). reflexivity.
Defined.

Lemma key_spaces_disjoint_witness :
  fst (_encode_root_cache_key R1 (Some record1) backed)
  <> fst (_encode_root_cache_key R1 None volatile).
Proof.
  apply (key_spaces_disjoint backed volatile R1 R1 record1 None); reflexivity.
Defined.

Lemma add_single_tier_ignores_rows_witness :
  add s1 (set_objects [record1] volatile)
  = (fst (add s1 volatile), set_objects [record1] (snd (add s1 volatile)))
  /\ objects (snd (add s1 volatile)) = objects volatile.
Proof.
  apply (add_single_tier_ignores_rows volatile s1 [record1]). reflexivity.
Defined.

Lemma add_storage_backed_changes_nothing_witness :
  snd (add s1 backed) = backed /\ exists e, fst (add s1 backed) = inl e.
Proof.
  apply (add_storage_backed_changes_nothing backed s1). reflexivity.
Defined.

Lemma get_current_sound_witness :
  evicted = evicted /\ record1 ∈ objects evicted
  /\ data_usage_key record1 = PyUsageKey R1.
Proof.
  apply (get_current_sound evicted evicted R1 record1). reflexivity.
Defined.

Lemma get_current_duplicates_witness :
  BlockStructure.get_current R1 duplicated
  = (inl MultipleObjectsReturned, duplicated).
Proof.
  apply (get_current_duplicates duplicated R1 record1 record2 [] [] []);
    reflexivity.
Defined.

Lemma update_or_create_with_data_idempotent_witness :
  BlockStructure.update_or_create_with_data [] (Fields fields1)
    (snd (BlockStructure.update_or_create_with_data payload1 (Fields fields1)
            backed))
  = (inr None,
     snd (BlockStructure.update_or_create_with_data payload1 (Fields fields1)
            backed)).
Proof.
  apply (update_or_create_with_data_idempotent backed (Fields fields1)
           payload1 [] None). reflexivity.
Defined.

Lemma created_record_has_no_file_witness :
  BlockStructure.update_or_create_with_data payload1 (Fields fields1) backed
  = (inr None, set_objects [new_row fields1] backed)
  /\ data (new_row fields1) = None
  /\ _get_from_store R1 (Some (new_row fields1))
       (set_objects [new_row fields1] backed)
     = (inl (ValueError "The 'data' attribute has no file associated with it."),
        set_objects [new_row fields1] backed).
Proof.
  apply (created_record_has_no_file backed fields1 payload1 R1);
    [reflexivity|].
  intros m Hin. inversion Hin.
Defined.

Lemma about_link_not_empty_witness :
  "https://lms.example.org/courses/course-v1:C+1+r/about" <> "".
Proof.
  apply (about_link_not_empty course.demo_courses
           (course.Key course.course_c)).
  reflexivity.
Defined.

Lemma add_codec_failure_writes_nothing_witness :
  add s_long backed = (inl (CodecError "table too long"), backed).
Proof.
  apply (add_codec_failure_writes_nothing backed s_long "table too long").
  reflexivity.
Defined.

End MoreExamples.
